(** * ELLIE fibre positions: a shallow embedding of [ELLIE_fibre_positions.py]

    The script computes the install positions of the TELLIE fibre pairs on
    the PSUP from the hex-cell coordinate file, compares them with the
    positions recorded in the database and prepares updated database
    tables.

    Numbers: Python floats and ROOT [Double_t] are modelled as real numbers
    ([R]); rounding error is not modelled, so an equation below is the exact
    counterpart of the script's "equal up to rounding".
    Errors: a Python exception is [None].
    Files: the coordinate file is the list of rows [csv.reader] yields. *)

From Stdlib Require Import Reals Lra Lia ZArith String Ascii List.
From stdpp Require Import base option list gmap strings.

Open Scope R_scope.

(** ** ROOT's [TVector3] *)

Module TVector3.

Record t : Type := mk { fX : R; fY : R; fZ : R }.

Definition add (p q : t) : t := mk (fX p + fX q) (fY p + fY q) (fZ p + fZ q).
Definition sub (p q : t) : t := mk (fX p - fX q) (fY p - fY q) (fZ p - fZ q).
(** [p * a], the product with a scalar. *)
Definition scale (p : t) (a : R) : t := mk (a * fX p) (a * fY p) (a * fZ p).

Definition Dot (p q : t) : R := fX p * fX q + fY p * fY q + fZ p * fZ q.

Definition Cross (p q : t) : t :=
  mk (fY p * fZ q - fY q * fZ p)
     (fZ p * fX q - fZ q * fX p)
     (fX p * fY q - fX q * fY p).

Definition Mag2 (p : t) : R := fX p * fX p + fY p * fY p + fZ p * fZ p.
Definition Mag (p : t) : R := sqrt (Mag2 p).

(** [SetMag]: the zero vector cannot be stretched; ROOT prints a warning and
    leaves it as it is. *)
Definition SetMag (p : t) (ma : R) : t :=
  let factor := Mag p in
  if Req_dec_T factor 0 then p
  else
    let factor := ma / factor in
    mk (fX p * factor) (fY p * factor) (fZ p * factor).

(** [Angle]: 0 when one of the two vectors is zero, else the arc cosine of
    the normalised dot product, clamped to [-1, 1]. *)
Definition Angle (p q : t) : R :=
  let ptot2 := Mag2 p * Mag2 q in
  if Rle_dec ptot2 0 then 0
  else
    let arg := Dot p q / sqrt ptot2 in
    let arg := if Rgt_dec arg 1 then 1 else arg in
    let arg := if Rlt_dec arg (-1) then -1 else arg in
    acos arg.

Definition zero : t := mk 0 0 0.

End TVector3.

Declare Scope vec_scope.
Delimit Scope vec_scope with vec.
Bind Scope vec_scope with TVector3.t.
Infix "+" := TVector3.add : vec_scope.
Infix "-" := TVector3.sub : vec_scope.
Infix "*" := TVector3.scale : vec_scope.

(** ** Python strings *)

(** [s[:n]] *)
Definition str_take (n : nat) (s : string) : string := substring 0 n s.
(** [s[n:]] *)
Definition str_drop (n : nat) (s : string) : string :=
  substring n (String.length s) s.
(** [s[-n:]] *)
Definition str_last (n : nat) (s : string) : string :=
  str_drop (String.length s - n) s.
(** [s[-1]]: an [IndexError] on the empty string. *)
Definition str_final (s : string) : option ascii :=
  match String.length s with
  | O => None
  | S n => String.get n s
  end.

(** [sub in s] *)
Fixpoint str_in (sub s : string) : bool :=
  String.prefix sub s ||
  match s with
  | EmptyString => false
  | String _ s' => str_in sub s'
  end.

(** ** The coordinate file and the external database *)

(** A row as [csv.reader] yields it; an empty line is the row [[]]. *)
Definition Row : Type := list string.

(** [filter(None, row)]: the fields that are not the empty string. *)
Definition filter_None (row : Row) : Row :=
  List.filter (fun s => negb (String.eqb s "")) row.

(** [row == []] *)
Definition is_empty_row (row : Row) : bool :=
  match row with [] => true | _ => false end.

(** A table of the RAT database: its real-valued fields ([GetD]) and its
    integer fields ([SetI]). *)
Record DBTable : Type := mkTable {
  tblD : gmap string R;
  tblI : gmap string Z
}.

Definition GetD (tb : DBTable) (field : string) : option R := tblD tb !! field.
Definition SetI (tb : DBTable) (field : string) (val : Z) : DBTable :=
  mkTable (tblD tb) (<[field := val]> (tblI tb)).

(** The [PANELINFO] table: the integer array [panel_number] and the real
    arrays [u], [v], [w]. *)
Record PanelInfo : Type := mkPanelInfo {
  panel_number : list Z;
  panel_u : list R;
  panel_v : list R;
  panel_w : list R
}.

(** [l.index(x)]: the first position of [x], a [ValueError] when absent. *)
Fixpoint list_index (x : Z) (l : list Z) : option nat :=
  match l with
  | [] => None
  | y :: l' => if Z.eqb y x then Some O else S <$> list_index x l'
  end.

(** ** What the script prints and writes *)

Inductive Event : Type :=
  | PrintBanner                                     (* "#####...#" *)
  | PrintNoPosition (fibre : string)                (* "Coundn't access x, y, z ... skipping" *)
  | PrintFibre (fibre : string)                     (* "%s:" *)
  | PrintHostNeighbour (host neighbour : string)    (* "Host: %s\nNeighbour: %s" *)
  | PrintDatabase (x y z : R)                       (* "Database: ..." *)
  | PrintCalculated (x y z : R)                     (* "Calculated : ..." *)
  | PrintNoReference (fibre : string)               (* "Refernce to fibre %s does not exist ..." *)
  | SaveAs (fname : string) (tb : DBTable).         (* table.SaveAs(fname) *)

(** A computation that prints and writes, and then returns or raises. *)
Record Run (A : Type) : Type := mkRun { trace : list Event; result : option A }.
Arguments mkRun {A} _ _.
Arguments trace {A} _.
Arguments result {A} _.

Definition run_ret {A} (a : A) : Run A := mkRun [] (Some a).
Definition run_raise {A} : Run A := mkRun [] None.
Definition run_emit (e : Event) : Run unit := mkRun [e] (Some tt).
(** An operation that returns or raises without output. *)
Definition run_lift {A} (o : option A) : Run A := mkRun [] o.
Definition run_bind {A B} (m : Run A) (k : A -> Run B) : Run B :=
  match result m with
  | None => mkRun (trace m) None
  | Some a => mkRun (trace m ++ trace (k a)) (result (k a))
  end.
(** [try: m except: h] *)
Definition run_try {A} (m : Run A) (h : Run A) : Run A :=
  match result m with
  | None => mkRun (trace m ++ trace h) (result h)
  | Some a => m
  end.

#[global] Instance Run_ret : MRet Run := @run_ret.
#[global] Instance Run_bind : MBind Run := fun A B k m => run_bind m k.

Section Script.

(** Python's [float()] and [int()] on strings: [None] is a [ValueError]. *)
Variable pyfloat : string -> option R.
Variable pyint : string -> option Z.

(** The database: [PANELINFO], and the fields a [GetLink] to [FIBRE]
    resolves.  The default tables of [FIBRE], which [make_new_db_files]
    updates, are passed as [db]; a fibre without table has a null table,
    and every access to it raises. *)
Variable PANELINFO : PanelInfo.
Variable FIBRE_link : string -> string -> option R.

(** *** [get_pmt_coordinates] *)

(** [[float(row[3]), float(row[4]), float(row[5])]] *)
Definition row_position (row : Row) : option (list R) :=
  x ← row !! 3%nat ≫= pyfloat;
  y ← row !! 4%nat ≫= pyfloat;
  z ← row !! 5%nat ≫= pyfloat;
  Some [x; y; z].

Definition row_vector (row : Row) : option TVector3.t :=
  x ← row !! 3%nat ≫= pyfloat;
  y ← row !! 4%nat ≫= pyfloat;
  z ← row !! 5%nat ≫= pyfloat;
  Some (TVector3.mk x y z).

(** The locals the first loop assigns; [None] is a name not bound yet. *)
Record Locals : Type := mkLocals {
  host_vec : option TVector3.t;
  panel_name : option string;
  neighbour_vec : option TVector3.t
}.

Definition no_locals : Locals := mkLocals None None None.

(** One turn of the first loop. *)
Definition scan_row (host_hex neighbour_hex : string) (st : Locals) (row : Row)
  : option Locals :=
  if is_empty_row row then Some st
  else
    let row := filter_None row in
    id ← row !! 1%nat;
    st ← (if String.eqb (str_take 4 id) host_hex then
            v ← row_vector row;
            name ← row !! 6%nat;
            Some (mkLocals (Some v) (Some (str_take 4 name)) (neighbour_vec st))
          else Some st);
    if String.eqb (str_take 4 id) neighbour_hex then
      v ← row_vector row;
      Some (mkLocals (host_vec st) (panel_name st) (Some v))
    else Some st.

Fixpoint scan_rows (host_hex neighbour_hex : string) (st : Locals)
  (rows : list Row) : option Locals :=
  match rows with
  | [] => Some st
  | row :: rows' =>
      st ← scan_row host_hex neighbour_hex st row;
      scan_rows host_hex neighbour_hex st rows'
  end.

(** One turn of the second loop: [panel_pmts] collects the cells of the
    host's panel under their cell number. *)
Definition collect_row (name : option string) (panel_pmts : gmap Z (list R))
  (row : Row) : option (gmap Z (list R)) :=
  if is_empty_row row then Some panel_pmts
  else
    let row := filter_None row in
    cell ← row !! 6%nat;
    name ← name;
    if String.eqb (str_take 4 cell) name then
      pos ← row_position row;
      k ← pyint (str_last 2 cell);
      Some (<[k := pos]> panel_pmts)
    else Some panel_pmts.

Fixpoint collect_rows (name : option string) (panel_pmts : gmap Z (list R))
  (rows : list Row) : option (gmap Z (list R)) :=
  match rows with
  | [] => Some panel_pmts
  | row :: rows' =>
      panel_pmts ← collect_row name panel_pmts row;
      collect_rows name panel_pmts rows'
  end.

(** The central PMT of the panel. *)
Definition central_pmt (panel_pmts : gmap Z (list R)) : option (list R) :=
  if (9 <? size panel_pmts)%nat then panel_pmts !! 10%Z else panel_pmts !! 4%Z.

Definition vector_of (pos : list R) : option TVector3.t :=
  x ← pos !! 0%nat; y ← pos !! 1%nat; z ← pos !! 2%nat;
  Some (TVector3.mk x y z).

(** [rows] is the whole file; [next(reader, None)] drops the header. *)
Definition get_pmt_coordinates (host_hex neighbour_hex : string)
  (rows : list Row) : option (TVector3.t * TVector3.t * TVector3.t * Z) :=
  let neighbour_hex :=
    if str_in "none" neighbour_hex then host_hex else neighbour_hex in
  st ← scan_rows host_hex neighbour_hex no_locals (tail rows);
  neighbour ← (match neighbour_vec st with
               | Some v => Some v
               | None => host_vec st
               end);
  panel_pmts ← collect_rows (panel_name st) ∅ (tail rows);
  central ← central_pmt panel_pmts;
  central_vec ← vector_of central;
  host ← host_vec st;
  name ← panel_name st;
  number ← pyint (str_drop 1 name);
  Some (central_vec, host, neighbour, number).

(** *** [calc_fibre_placement] *)

Definition hex_size : R := 17.05.
Definition plate_height : R := 0.3 + 0.22.
Definition hex_radius : R := hex_size * cos (30 * (PI / 180)).
Definition fibre_separation : R := 0.51.

(** The locals of [calc_fibre_placement]. *)
Record Placement : Type := mkPlacement {
  vec_from_centre : TVector3.t;
  pl_host_vec : TVector3.t;
  pl_neighbour_vec : TVector3.t;
  vec_to_centre : TVector3.t;
  cent_to_neig_unit : TVector3.t;
  plate_vec : TVector3.t;
  curve_correction : TVector3.t;
  positionA : TVector3.t;
  positionB : TVector3.t
}.

(** The vector algebra, from the three cell vectors and the panel's entry
    ([u], [v], [w]) of [PANELINFO]. *)
Definition place (central host neighbour uvw : TVector3.t) : Placement :=
  let vec_to_centre := TVector3.SetMag uvw 1 in
  let cent_to_neig_unit := TVector3.SetMag (neighbour - central)%vec 1 in
  let plate_vec := (host + cent_to_neig_unit * (hex_radius + plate_height))%vec in
  let curve_correction :=
    TVector3.SetMag (TVector3.Cross (plate_vec - host)%vec vec_to_centre) 1 in
  mkPlacement central host neighbour vec_to_centre cent_to_neig_unit plate_vec
    curve_correction
    (plate_vec + curve_correction * fibre_separation)%vec
    (plate_vec - curve_correction * fibre_separation)%vec.

(** The panel's entry of [PANELINFO]. *)
Definition panel_vector (number : Z) : option TVector3.t :=
  index ← list_index number (panel_number PANELINFO);
  u ← panel_u PANELINFO !! index;
  v ← panel_v PANELINFO !! index;
  w ← panel_w PANELINFO !! index;
  Some (TVector3.mk u v w).

Definition calc_fibre_locals (host_hex neighbour_hex : string)
  (rows : list Row) : option Placement :=
  '(central, host, neighbour, number) ←
    get_pmt_coordinates host_hex neighbour_hex rows;
  uvw ← panel_vector number;
  Some (place central host neighbour uvw).

(** The checks [da], [db], [aa], [ab] that follow are computed and dropped:
    the test on them is commented out. *)
Definition calc_fibre_placement (host_hex neighbour_hex : string)
  (rows : list Row) : option (TVector3.t * TVector3.t) :=
  p ← calc_fibre_locals host_hex neighbour_hex rows;
  Some (positionA p, positionB p).

(** *** [get_pointing_angle] *)

Definition link_vector (fibre a b c : string) : option TVector3.t :=
  x ← FIBRE_link fibre a; y ← FIBRE_link fibre b; z ← FIBRE_link fibre c;
  Some (TVector3.mk x y z).

Definition angle_between (central_vector pointing_vector : TVector3.t) : R :=
  180 - TVector3.Angle central_vector pointing_vector * (180 / PI).

(** When the entry cannot be read the message is printed, and the [return]
    then meets an unbound local. *)
Definition get_pointing_angle (fibre : string) : Run R :=
  vs ← run_try
          (run_lift (central_vector ← link_vector fibre "x" "y" "z";
                     pointing_vector ← link_vector fibre "u" "v" "w";
                     Some (Some (central_vector, pointing_vector))))
          (run_emit (PrintNoReference fibre);; run_ret None);
  match vs with
  | Some (central_vector, pointing_vector) =>
      run_ret (angle_between central_vector pointing_vector)
  | None => run_raise
  end.

(** *** [compare_position_calculations] *)

Definition is_B (fibre : string) : option bool :=
  c ← str_final fibre; Some (Ascii.eqb c "B").

Definition compare_fibre (pmt_hex neighbour_hex : gmap string string)
  (rows : list Row) (db : gmap string DBTable) (fibre : string) : Run unit :=
  '(posA, posB) ← run_lift (host ← pmt_hex !! fibre;
                             neighbour ← neighbour_hex !! fibre;
                             calc_fibre_placement host neighbour rows);
  let table_GetD field :=
    run_lift (db !! fibre ≫= fun table => GetD table field) in
  match db !! fibre ≫= fun table => GetD table "x" with
  | None => run_emit PrintBanner;; run_emit (PrintNoPosition fibre)
  | Some _ =>
      b ← run_lift (is_B fibre);
      x ← table_GetD "x";
      let pos := if b : bool then posB else posA in
      let diff := x / 10 - TVector3.fX pos in
      if Rgt_dec (Rabs diff) 1 then
        run_emit PrintBanner;;
        run_emit (PrintFibre fibre);;
        host ← run_lift (pmt_hex !! fibre);
        neighbour ← run_lift (neighbour_hex !! fibre);
        run_emit (PrintHostNeighbour host neighbour);;
        x ← table_GetD "x"; y ← table_GetD "y"; z ← table_GetD "z";
        run_emit (PrintDatabase (x / 10) (y / 10) (z / 10));;
        b ← run_lift (is_B fibre);
        let pos := if b : bool then posB else posA in
        run_emit (PrintCalculated (TVector3.fX pos) (TVector3.fY pos)
                    (TVector3.fZ pos))
      else run_ret tt
  end.

Fixpoint compare_position_calculations (fibres : list string)
  (pmt_hex neighbour_hex : gmap string string) (rows : list Row)
  (db : gmap string DBTable) : Run unit :=
  match fibres with
  | [] => run_ret tt
  | fibre :: fibres' =>
      compare_fibre pmt_hex neighbour_hex rows db fibre;;
      compare_position_calculations fibres' pmt_hex neighbour_hex rows db
  end.

(** *** [make_new_db_files] *)

(** [round(x)]: to the nearest integer, halves away from zero. *)
Definition round_half_away (x : R) : Z :=
  if Rle_dec 0 x then Int_part (x + 1 / 2) else (- Int_part (- x + 1 / 2))%Z.

(** [int(round(x, -1))] *)
Definition round_tens (x : R) : Z := (round_half_away (x / 10) * 10)%Z.

(** The angle of a fibre; [None] is the [continue] of the handler. *)
Definition fibre_angle (fibre : string) : Run (option Z) :=
  if String.eqb (str_take 2 fibre) "FT" then run_ret (Some 0%Z)
  else
    run_try (a ← get_pointing_angle fibre; run_ret (Some (round_tens a)))
            (run_ret None).

(** One turn of the loop: the table of the fibre is updated in the database
    and written out. *)
Definition new_db_file (nodes : gmap string Z) (db : gmap string DBTable)
  (fibre : string) : Run (gmap string DBTable) :=
  a ← fibre_angle fibre;
  match a with
  | None => run_ret db
  | Some angle =>
      table ← run_lift (db !! fibre);
      node ← run_lift (nodes !! fibre);
      let table := SetI table "psup_pannel" node in
      let table := SetI table "pointing_angle" angle in
      let table := SetI table "fibre_status" 0 in
      run_emit (SaveAs ("./new_tables/" +:+ fibre +:+ ".json") table);;
      run_ret (<[fibre := table]> db)
  end.

Fixpoint make_new_db_files (nodes : gmap string Z) (fibres : list string)
  (db : gmap string DBTable) : Run (gmap string DBTable) :=
  match fibres with
  | [] => run_ret db
  | fibre :: fibres' =>
      db ← new_db_file nodes db fibre;
      make_new_db_files nodes fibres' db
  end.

End Script.

(** ** A small installation, for the examples *)

Module Demo.

(** Unsigned decimal numerals, on which they agree with [int()] and
    [float()]; every other string is refused. *)
Definition digit_of (c : ascii) : option Z :=
  let n := nat_of_ascii c in
  if ((48 <=? n) && (n <=? 57))%nat then Some (Z.of_nat (n - 48)) else None.

Fixpoint digits_value (s : string) (acc : Z) : option Z :=
  match s with
  | EmptyString => Some acc
  | String c s' => d ← digit_of c; digits_value s' (10 * acc + d)%Z
  end.

Definition digits_int (s : string) : option Z :=
  match s with
  | EmptyString => None
  | _ => digits_value s 0%Z
  end.

Definition digits_float (s : string) : option R := IZR <$> digits_int s.

(** Two panels: [H001] is cell 4, the central cell, of panel 1, [H002] is
    cell 3 of panel 2, [H003] is cell 1 of panel 1. *)
Definition rows : list Row :=
  [ ["n"; "pmt"; "type"; "x"; "y"; "z"; "panel"];
    ["1"; "H001"; "a"; "100"; "0"; "0"; "P00104"];
    [];
    ["2"; "H002"; "a"; "100"; "10"; "0"; "P00203"];
    ["3"; "H003"; ""; "a"; "100"; "0"; "20"; "P00101"] ].

Definition panelinfo : PanelInfo := mkPanelInfo [7; 1; 2]%Z [0; 1; 1] [1; 0; 0] [0; 0; 0].

(** The locals of the placement with host [H001] and neighbour [H002], and
    with host [H001] and no neighbour. *)
Definition placed : Placement :=
  place (TVector3.mk 100 0 0) (TVector3.mk 100 0 0) (TVector3.mk 100 10 0)
    (TVector3.mk 1 0 0).
Definition stuck : Placement :=
  place (TVector3.mk 100 0 0) (TVector3.mk 100 0 0) (TVector3.mk 100 0 0)
    (TVector3.mk 1 0 0).

(** The install table: fibre [FS007] and fibre [FS009] sit on [H001] with
    no neighbour listed, fibre [FS404] on a cell the file does not list. *)
Definition pmt_hex : gmap string string :=
  list_to_map [("FS007", "H001"); ("FS009", "H001"); ("FS404", "H404")]%string.
Definition neighbour_hex : gmap string string :=
  list_to_map [("FS007", "none"); ("FS009", "none"); ("FS404", "none")]%string.
Definition nodes : gmap string Z := list_to_map [("FT001A"%string, 12%Z)].

(** The database: [FS007] is recorded at (1200, 50, 0) mm, 20 cm from the
    host cell along [x], and aims at the centre; [FS008] and [FT001A] aim
    away from it; [FS009] has no table. *)
Definition db : gmap string DBTable :=
  list_to_map
    [("FS007"%string,
      mkTable (list_to_map [("x"%string, 1200); ("y"%string, 50);
                            ("z"%string, 0)]) ∅);
     ("FT001A"%string, mkTable ∅ ∅)].

Definition link (fibre field : string) : option R :=
  if String.eqb fibre "FS007" then
    list_to_map (M := gmap string R)
      [("x"%string, 1200); ("y"%string, 50); ("z"%string, 0);
       ("u"%string, -1200); ("v"%string, -50); ("w"%string, 0)] !! field
  else if String.eqb fibre "FS008" || String.eqb fibre "FT001A" then
    list_to_map (M := gmap string R)
      [("x"%string, 0); ("y"%string, 0); ("z"%string, 800);
       ("u"%string, 0); ("v"%string, 0); ("w"%string, 800)] !! field
  else None.

End Demo.

(** ** The readers and the entry point *)

(** What [read_install_table] returns: [nodes], [fibres], [pmt_hex] and
    [neighbour_hex]. *)
Record InstallTable : Type := mkInstall {
  tab_nodes : gmap string Z;
  tab_fibres : list string;
  tab_pmt_hex : gmap string string;
  tab_neighbour_hex : gmap string string
}.

Definition no_install : InstallTable := mkInstall ∅ [] ∅ ∅.

(** The fibre [name] on node [node], host [host], neighbour [neighbour]. *)
Definition install_fibre (name : string) (node : Z) (host neighbour : string)
  (tab : InstallTable) : InstallTable :=
  mkInstall (<[name := node]> (tab_nodes tab))
            (tab_fibres tab ++ [name])
            (<[name := host]> (tab_pmt_hex tab))
            (<[name := neighbour]> (tab_neighbour_hex tab)).

(** The fibre of a row: the corrected column when it is filled in. *)
Definition row_fibre (row : Row) : option string :=
  corrected ← row !! 3%nat;
  if String.eqb corrected "" then row !! 2%nat else Some corrected.

(** The host and neighbour hex of a row, again the corrected columns when
    they are filled in. *)
Definition row_plate (row : Row) : option (string * string) :=
  moved ← row !! 12%nat;
  if String.eqb moved "" then
    host ← row !! 8%nat; neighbour ← row !! 9%nat; Some (host, neighbour)
  else
    neighbour ← row !! 13%nat; Some (moved, neighbour).

Section Readers.

Variable pyfloat : string -> option R.
Variable pyint : string -> option Z.
Variable PANELINFO : PanelInfo.

(** *** [read_install_table] *)

(** One turn of the loop.  A row whose first field is no integer, or that
    has no first field, is passed over; a field missing further on is an
    [IndexError], which nothing catches. *)
Definition install_row (tab : InstallTable) (row : Row) : option InstallTable :=
  match row !! 0%nat ≫= pyint with
  | None => Some tab
  | Some node =>
      fibre ← row_fibre row;
      if String.eqb (str_take 2 fibre) "FT" then
        '(host, neighbour) ← row_plate row;
        Some (install_fibre (fibre +:+ "B") node host neighbour
                (install_fibre (fibre +:+ "A") node host neighbour tab))
      else
        '(host, neighbour) ← row_plate row;
        Some (install_fibre fibre node host neighbour tab)
  end.

Fixpoint install_rows (tab : InstallTable) (rows : list Row)
  : option InstallTable :=
  match rows with
  | [] => Some tab
  | row :: rows' => tab ← install_row tab row; install_rows tab rows'
  end.

Definition read_install_table (rows : list Row) : option InstallTable :=
  install_rows no_install rows.

(** *** [read_PMT_coordinates] *)

(** One turn of the loop; the handler raises again what it catches. *)
Definition cell_row (cells : gmap string (list R)) (row : Row)
  : option (gmap string (list R)) :=
  if is_empty_row row then Some cells
  else
    let row := filter_None row in
    pos ← row_position pyfloat row;
    id ← row !! 1%nat;
    Some (<[id := pos]> cells).

Fixpoint cell_rows (cells : gmap string (list R)) (rows : list Row)
  : option (gmap string (list R)) :=
  match rows with
  | [] => Some cells
  | row :: rows' => cells ← cell_row cells row; cell_rows cells rows'
  end.

(** No line is dropped here: the header is read like every other line. *)
Definition read_PMT_coordinates (rows : list Row) : option (gmap string (list R)) :=
  cell_rows ∅ rows.

(** *** The entry point *)

(** The install table and the coordinate file are the rows of the files of
    the two options; [db] is the database after [LoadDefaults]. *)
Definition main (install pmt : list Row) (db : gmap string DBTable) : Run unit :=
  tab ← run_lift (read_install_table install);
  compare_position_calculations pyfloat pyint PANELINFO (tab_fibres tab)
    (tab_pmt_hex tab) (tab_neighbour_hex tab) pmt db.

End Readers.

(** A row of the install table: the first field is an integer and must be
    followed by what the loop reads. *)
Definition row_complete (pyint : string -> option Z) (row : Row) : bool :=
  match row !! 0%nat ≫= pyint with
  | None => true
  | Some _ =>
      match row !! 12%nat with
      | None => false
      | Some moved =>
          if String.eqb moved "" then true else (14 <=? length row)%nat
      end
  end.

(** The rows [read_install_table] does not pass over. *)
Definition row_counted (pyint : string -> option Z) (row : Row) : bool :=
  match row !! 0%nat ≫= pyint with Some _ => true | None => false end.

(** The locals of the first loop of [get_pmt_coordinates] run with the host
    as neighbour ([st1]) and with a neighbour no line matches ([st2]). *)
Definition same_scan (st1 st2 : option Locals) : Prop :=
  match st1, st2 with
  | Some st1, Some st2 =>
      host_vec st1 = host_vec st2 /\ panel_name st1 = panel_name st2 /\
      neighbour_vec st1 = host_vec st1 /\ neighbour_vec st2 = None
  | None, None => True
  | _, _ => False
  end.

(** What the comparison of a fibre on [host] and [neighbour] needs: the
    placement returns and, when the table of the fibre has an [x], the
    identifier has a last letter and, should the discrepancy be printed,
    the table has a [y] and a [z] too. *)
Definition placed_and_recorded (pyfloat : string -> option R)
  (pyint : string -> option Z) (PANELINFO : PanelInfo) (rows : list Row)
  (db : gmap string DBTable) (fibre host neighbour : string) : Prop :=
  exists posA posB,
    calc_fibre_placement pyfloat pyint PANELINFO host neighbour rows
      = Some (posA, posB) /\
    forall x, db !! fibre ≫= (fun table => GetD table "x") = Some x ->
      exists b,
        is_B fibre = Some b /\
        (Rabs (x / 10 - TVector3.fX (if b : bool then posB else posA)) > 1 ->
         is_Some (db !! fibre ≫= fun table => GetD table "y") /\
         is_Some (db !! fibre ≫= fun table => GetD table "z")).

Definition comparable (pyfloat : string -> option R)
  (pyint : string -> option Z) (PANELINFO : PanelInfo)
  (pmt_hex neighbour_hex : gmap string string) (rows : list Row)
  (db : gmap string DBTable) (fibre : string) : Prop :=
  exists host neighbour,
    pmt_hex !! fibre = Some host /\ neighbour_hex !! fibre = Some neighbour /\
    placed_and_recorded pyfloat pyint PANELINFO rows db fibre host neighbour.

(** The three dictionaries have the fibres of the list as keys. *)
Definition install_covered (tab : InstallTable) : Prop :=
  forall f,
    (In f (tab_fibres tab) <-> is_Some (tab_nodes tab !! f)) /\
    (In f (tab_fibres tab) <-> is_Some (tab_pmt_hex tab !! f)) /\
    (In f (tab_fibres tab) <-> is_Some (tab_neighbour_hex tab !! f)).

(** The two fibres of a plate have the same entries. *)
Definition install_paired (tab : InstallTable) : Prop :=
  forall f,
    str_take 2 f = "FT" ->
    tab_nodes tab !! (f +:+ "A") = tab_nodes tab !! (f +:+ "B") /\
    tab_pmt_hex tab !! (f +:+ "A") = tab_pmt_hex tab !! (f +:+ "B") /\
    tab_neighbour_hex tab !! (f +:+ "A") = tab_neighbour_hex tab !! (f +:+ "B").

(** A second installation: an install table with its title line, a plate
    [FT001] on node 12, a fibre [FS007] whose name and place were corrected,
    and a line that is no record. *)
Module Install.

Definition rows : list Row :=
  [ ["Node"; "Date"; "Fibre"; "Corrected"; ""; ""; ""; ""; "Host"; "Neighbour";
     ""; ""; "Host2"; "Neighbour2"];
    ["12"; "d"; "FT001"; ""; ""; ""; ""; ""; "H003"; "H001"; ""; ""; ""];
    ["x1"; "FT002"];
    ["7"; "d"; "FS700"; "FS007"; ""; ""; ""; ""; "H404"; "H404"; ""; "";
     "H001"; "H002"] ].

(** [PANELINFO] without panel 1, and with panel 1 twice. *)
Definition panels_without : PanelInfo := mkPanelInfo [7; 2]%Z [0; 1] [1; 0] [0; 0].
Definition panels_twice : PanelInfo := mkPanelInfo [1; 1]%Z [1; 0] [0; 1] [0; 0].

(** [PANELINFO] with panel 1 pointing along [z], and the locals of the
    placement with host [H001] and neighbour [H002] under it: the two
    fibres are apart along [x]. *)
Definition panels_up : PanelInfo := mkPanelInfo [1]%Z [0] [0] [1].
Definition placed_up : Placement :=
  place (TVector3.mk 100 0 0) (TVector3.mk 100 0 0) (TVector3.mk 100 10 0)
    (TVector3.mk 0 0 1).

(** A pair of fibres on [H001] towards [H002], both recorded at
    (1012, 0, 0) mm. *)
Definition pair_hex : gmap string string :=
  list_to_map [("FS011A", "H001"); ("FS011B", "H001")]%string.
Definition pair_neighbour : gmap string string :=
  list_to_map [("FS011A", "H002"); ("FS011B", "H002")]%string.
Definition pair_table : DBTable :=
  mkTable (list_to_map [("x"%string, 1012); ("y"%string, 0); ("z"%string, 0)]) ∅.
Definition pair_db : gmap string DBTable :=
  list_to_map [("FS011A"%string, pair_table); ("FS011B"%string, pair_table)].

(** Nodes for the fibre [FS007] of the demo database. *)
Definition link_nodes : gmap string Z := list_to_map [("FS007"%string, 7%Z)].

Definition table : InstallTable :=
  install_fibre "FS007" 7 "H001" "H002"
    (install_fibre "FT001B" 12 "H003" "H001"
       (install_fibre "FT001A" 12 "H003" "H001" no_install)).

End Install.

(** ** Reading the table *)

(** [row] is a line of the file that lists cell [k] of panel [name] at
    [pos]: what the second loop of [get_pmt_coordinates] looks for. *)
Definition lists_cell (pyfloat : string -> option R) (pyint : string -> option Z)
  (name : string) (row : Row) (k : Z) (pos : list R) : Prop :=
  row <> [] /\
  exists cell,
    filter_None row !! 6%nat = Some cell /\
    str_take 4 cell = name /\
    row_position pyfloat (filter_None row) = Some pos /\
    pyint (str_last 2 cell) = Some k.

(** [row] matches the identifier [hex] of a host or neighbour: the test of
    the first loop of [get_pmt_coordinates]. *)
Definition lists_hex (hex : string) (row : Row) : bool :=
  negb (is_empty_row row) &&
  match filter_None row !! 1%nat with
  | Some id => String.eqb (str_take 4 id) hex
  | None => false
  end.

(** Some line of the file, after the header, matches [hex]. *)
Definition hex_listed (hex : string) (rows : list Row) : bool :=
  existsb (lists_hex hex) (tail rows).

(** ** Reading the new tables *)

(** The table a turn of the loop of [make_new_db_files] writes. *)
Definition updated (table : DBTable) (node angle : Z) : DBTable :=
  SetI (SetI (SetI table "psup_pannel" node) "pointing_angle" angle)
    "fibre_status" 0.

(** The field [psup_panel] of the table of a fibre, where there is one. *)
Definition psup_panel_of (db : gmap string DBTable) (fibre : string) : option Z :=
  db !! fibre ≫= fun table => tblI table !! "psup_panel".

(** ** Vector algebra *)

Section Geometry.

Import TVector3.

Implicit Types p q : TVector3.t.

Lemma Mag2_nonneg p : 0 <= Mag2 p.
Proof. unfold Mag2. nra. Qed.

Lemma Mag_nonneg p : 0 <= Mag p.
Proof. apply sqrt_pos. Qed.

Lemma Mag2_zero_inv p : Mag2 p = 0 -> p = zero.
Proof.
  destruct p as [x y z]. unfold Mag2, zero. simpl. intros H.
  f_equal; nra.
Qed.

Lemma Mag_zero_inv p : Mag p = 0 -> p = zero.
Proof.
  intros H. apply Mag2_zero_inv.
  apply sqrt_eq_0; [apply Mag2_nonneg | exact H].
Qed.

Lemma Mag_zero : Mag zero = 0.
Proof.
  unfold Mag, Mag2, zero. simpl.
  replace (0 * 0 + 0 * 0 + 0 * 0) with 0 by lra. apply sqrt_0.
Qed.

Lemma Mag_pos p : p <> zero -> 0 < Mag p.
Proof.
  intros Hp. destruct (Mag_nonneg p) as [H | H]; [exact H |].
  exfalso. apply Hp, Mag_zero_inv. symmetry. exact H.
Qed.

Lemma Mag_scale p a : Mag (p * a)%vec = Rabs a * Mag p.
Proof.
  unfold Mag. rewrite <- sqrt_Rsqr_abs, <- sqrt_mult.
  - f_equal. unfold Mag2, scale, Rsqr. simpl. ring.
  - apply Rle_0_sqr.
  - apply Mag2_nonneg.
Qed.

Lemma SetMag_zero ma : SetMag zero ma = zero.
Proof.
  unfold SetMag. destruct (Req_dec_T (Mag zero) 0) as [_ | H]; [reflexivity |].
  destruct H. apply Mag_zero.
Qed.

(** Away from zero [SetMag p 1] is [p] divided by its length. *)
Lemma SetMag_scale p : p <> zero -> SetMag p 1 = (p * / Mag p)%vec.
Proof.
  intros Hp. unfold SetMag.
  destruct (Req_dec_T (Mag p) 0) as [H | H].
  - destruct Hp. apply Mag_zero_inv, H.
  - unfold scale. f_equal; field; exact H.
Qed.

Lemma SetMag_unit p : p <> zero -> Mag (SetMag p 1) = 1.
Proof.
  intros Hp. rewrite SetMag_scale by exact Hp. rewrite Mag_scale.
  pose proof (Mag_pos p Hp) as H.
  rewrite Rabs_right.
  - field. lra.
  - apply Rle_ge, Rlt_le, Rinv_0_lt_compat, H.
Qed.

Lemma sub_self p : (p - p)%vec = zero.
Proof. unfold sub, zero. f_equal; ring. Qed.

Lemma sub_zero_inv p q : (p - q)%vec = zero -> p = q.
Proof.
  destruct p, q. unfold sub, zero. simpl. intros [= Hx Hy Hz].
  f_equal; lra.
Qed.

Lemma add_zero_scaled p a : (p + zero * a)%vec = p.
Proof. destruct p. unfold add, scale, zero. simpl. f_equal; ring. Qed.

Lemma sub_zero_scaled p a : (p - zero * a)%vec = p.
Proof. destruct p. unfold sub, scale, zero. simpl. f_equal; ring. Qed.

Lemma Cross_zero_l q : Cross zero q = zero.
Proof. unfold Cross, zero. simpl. f_equal; ring. Qed.

(** The midpoint and the difference of [c + d * s] and [c - d * s]. *)
Lemma midpoint_offsets p q a :
  (((p + q * a) + (p - q * a)) * (1 / 2))%vec = p.
Proof. destruct p, q. unfold add, sub, scale. simpl. f_equal; field. Qed.

Lemma difference_offsets p q a :
  ((p + q * a) - (p - q * a))%vec = (q * (2 * a))%vec.
Proof. destruct p, q. unfold add, sub, scale. simpl. f_equal; ring. Qed.

Lemma add_sub_cancel p q : ((p + q) - p)%vec = q.
Proof. destruct p, q. unfold add, sub. simpl. f_equal; ring. Qed.

End Geometry.

(** ** The constants of the plate *)

Lemma plate_height_value : plate_height = 0.52.
Proof. unfold plate_height. lra. Qed.

Lemma thirty_degrees : 30 * (PI / 180) = PI / 6.
Proof. field. Qed.

Lemma hex_radius_value : hex_radius = hex_size * (sqrt 3 / 2).
Proof. unfold hex_radius. rewrite thirty_degrees, cos_PI6. reflexivity. Qed.

Lemma plate_offset_pos : 0 < hex_radius + plate_height.
Proof.
  rewrite hex_radius_value, plate_height_value. unfold hex_size.
  assert (0 < sqrt 3) by (apply sqrt_lt_R0; lra). nra.
Qed.

Lemma fibre_separation_pos : 0 < fibre_separation.
Proof. unfold fibre_separation. lra. Qed.

(** ** The placement *)

Section PlacementProperties.

Import TVector3.

Variable pyfloat : string -> option R.
Variable pyint : string -> option Z.
Variable PANELINFO : PanelInfo.

(** A placement that returns is [place] at the vectors of
    [get_pmt_coordinates] and the panel's entry of [PANELINFO]. *)
Lemma calc_fibre_locals_Some host_hex neighbour_hex rows p :
  calc_fibre_locals pyfloat pyint PANELINFO host_hex neighbour_hex rows = Some p ->
  exists central host neighbour number uvw,
    get_pmt_coordinates pyfloat pyint host_hex neighbour_hex rows
      = Some (central, host, neighbour, number) /\
    panel_vector PANELINFO number = Some uvw /\
    p = place central host neighbour uvw.
Proof.
  unfold calc_fibre_locals. intros H.
  destruct (get_pmt_coordinates pyfloat pyint host_hex neighbour_hex rows)
    as [[[[central host] neighbour] number] |]; [| discriminate].
  simpl in H.
  destruct (panel_vector PANELINFO number) as [uvw |] eqn:Huvw; [| discriminate].
  simpl in H. injection H as <-.
  exists central, host, neighbour, number, uvw. auto.
Qed.

Lemma calc_fibre_placement_locals host_hex neighbour_hex rows p :
  calc_fibre_locals pyfloat pyint PANELINFO host_hex neighbour_hex rows = Some p ->
  calc_fibre_placement pyfloat pyint PANELINFO host_hex neighbour_hex rows
    = Some (positionA p, positionB p).
Proof. unfold calc_fibre_placement. intros ->. reflexivity. Qed.

Lemma place_midpoint central host neighbour uvw :
  let p := place central host neighbour uvw in
  ((positionA p + positionB p) * (1 / 2))%vec = plate_vec p.
Proof. simpl. apply midpoint_offsets. Qed.

Lemma place_separation central host neighbour uvw :
  let p := place central host neighbour uvw in
  Mag (positionA p - positionB p)
    = 2 * fibre_separation * Mag (curve_correction p).
Proof.
  simpl. rewrite difference_offsets, Mag_scale, Rabs_right; [reflexivity |].
  pose proof fibre_separation_pos. lra.
Qed.

(** The neighbour at the central cell: nothing is stretched, and the plate
    and both fibres sit on the host cell. *)
Lemma place_neighbour_central central host uvw :
  let p := place central host central uvw in
  plate_vec p = host /\ positionA p = host /\ positionB p = host.
Proof.
  simpl. rewrite sub_self, SetMag_zero, add_zero_scaled, sub_self,
    Cross_zero_l, SetMag_zero, add_zero_scaled, sub_zero_scaled. auto.
Qed.

End PlacementProperties.

(** ** The demo installation, evaluated *)

Section DemoFacts.

Import TVector3.

Lemma demo_coordinates :
  get_pmt_coordinates Demo.digits_float Demo.digits_int "H001" "H002" Demo.rows
  = Some (mk 100 0 0, mk 100 0 0, mk 100 10 0, 1%Z).
Proof. vm_compute. reflexivity. Qed.

Lemma demo_coordinates_none :
  get_pmt_coordinates Demo.digits_float Demo.digits_int "H001" "none" Demo.rows
  = Some (mk 100 0 0, mk 100 0 0, mk 100 0 0, 1%Z).
Proof. vm_compute. reflexivity. Qed.

Lemma demo_locals :
  calc_fibre_locals Demo.digits_float Demo.digits_int Demo.panelinfo
    "H001" "H002" Demo.rows
  = Some Demo.placed.
Proof. unfold calc_fibre_locals. rewrite demo_coordinates. reflexivity. Qed.

Lemma demo_locals_none :
  calc_fibre_locals Demo.digits_float Demo.digits_int Demo.panelinfo
    "H001" "none" Demo.rows
  = Some Demo.stuck.
Proof. unfold calc_fibre_locals. rewrite demo_coordinates_none. reflexivity. Qed.

Lemma demo_placement_none :
  calc_fibre_placement Demo.digits_float Demo.digits_int Demo.panelinfo
    "H001" "none" Demo.rows
  = Some (mk 100 0 0, mk 100 0 0).
Proof.
  rewrite (calc_fibre_placement_locals _ _ _ _ _ _ _ demo_locals_none).
  destruct (place_neighbour_central (mk 100 0 0) (mk 100 0 0) (mk 1 0 0))
    as (_ & HA & HB).
  fold Demo.stuck in HA, HB. rewrite HA, HB. reflexivity.
Qed.

Lemma Mag_x_axis a : 0 <= a -> Mag (mk a 0 0) = a.
Proof.
  intros Ha. unfold Mag, Mag2. simpl.
  replace (a * a + 0 * 0 + 0 * 0) with (a * a) by ring.
  apply sqrt_square, Ha.
Qed.

Lemma Mag_y_axis a : 0 <= a -> Mag (mk 0 a 0) = a.
Proof.
  intros Ha. unfold Mag, Mag2. simpl.
  replace (0 * 0 + a * a + 0 * 0) with (a * a) by ring.
  apply sqrt_square, Ha.
Qed.

Lemma SetMag_x_unit : SetMag (mk 1 0 0) 1 = mk 1 0 0.
Proof.
  unfold SetMag. rewrite Mag_x_axis by lra.
  destruct (Req_dec_T 1 0); [reflexivity |]. simpl. f_equal; field.
Qed.

Lemma SetMag_y_ten : SetMag (mk 0 10 0) 1 = mk 0 1 0.
Proof.
  unfold SetMag. rewrite Mag_y_axis by lra.
  destruct (Req_dec_T 10 0); [lra |]. simpl. f_equal; field.
Qed.

(** With [H002] as neighbour the plate is pushed along [y], and the two
    fibres are separated along [z]. *)
Lemma demo_cross :
  Cross (plate_vec Demo.placed - pl_host_vec Demo.placed)%vec
    (vec_to_centre Demo.placed)
  = mk 0 0 (- (hex_radius + plate_height)).
Proof.
  unfold Demo.placed. simpl. rewrite add_sub_cancel, SetMag_x_unit.
  replace (mk 100 10 0 - mk 100 0 0)%vec with (mk 0 10 0)
    by (unfold sub; simpl; f_equal; ring).
  rewrite SetMag_y_ten. unfold Cross, scale. simpl. f_equal; ring.
Qed.

Lemma demo_cross_nonzero :
  Cross (plate_vec Demo.placed - pl_host_vec Demo.placed)%vec
    (vec_to_centre Demo.placed) <> zero.
Proof.
  rewrite demo_cross. intros [= H].
  pose proof plate_offset_pos. lra.
Qed.

End DemoFacts.

(** ** Claims on the placement *)

Section PlacementClaims.

Import TVector3.

Variable pyfloat : string -> option R.
Variable pyint : string -> option Z.
Variable PANELINFO : PanelInfo.

(** X22.  When the placement returns, the two positions are
    symmetric about [plate_vec]: their midpoint is [plate_vec].  Their
    distance is [2 * fibre_separation] = 1.02 cm whenever the cross product
    of [plate_vec - host_vec] and [vec_to_centre] is not the zero vector;
    when it is the zero vector both positions are [plate_vec]. *)
Theorem positions_symmetric_about_plate host_hex neighbour_hex rows p :
  calc_fibre_locals pyfloat pyint PANELINFO host_hex neighbour_hex rows = Some p ->
  calc_fibre_placement pyfloat pyint PANELINFO host_hex neighbour_hex rows
    = Some (positionA p, positionB p) /\
  ((positionA p + positionB p) * (1 / 2))%vec = plate_vec p /\
  (Cross (plate_vec p - pl_host_vec p)%vec (vec_to_centre p) <> zero ->
     Mag (positionA p - positionB p)%vec = 2 * fibre_separation /\
     2 * fibre_separation = 1.02) /\
  (Cross (plate_vec p - pl_host_vec p)%vec (vec_to_centre p) = zero ->
     positionA p = plate_vec p /\ positionB p = plate_vec p).
Proof.
  intros Hp. split; [apply calc_fibre_placement_locals, Hp |].
  apply calc_fibre_locals_Some in Hp
    as (central & host & neighbour & number & uvw & _ & _ & ->).
  split; [apply place_midpoint |]. split.
  - intros Hcross.
    pose proof (place_separation central host neighbour uvw) as Hsep.
    cbv zeta in Hsep. rewrite Hsep.
    replace (curve_correction (place central host neighbour uvw))
      with (SetMag (Cross (plate_vec (place central host neighbour uvw)
                            - pl_host_vec (place central host neighbour uvw))%vec
                      (vec_to_centre (place central host neighbour uvw))) 1)
      by reflexivity.
    rewrite SetMag_unit by exact Hcross.
    unfold fibre_separation. split; lra.
  - intros Hcross.
    change (positionA (place central host neighbour uvw))
      with (plate_vec (place central host neighbour uvw)
            + SetMag (Cross (plate_vec (place central host neighbour uvw)
                              - pl_host_vec (place central host neighbour uvw))%vec
                        (vec_to_centre (place central host neighbour uvw))) 1
              * fibre_separation)%vec.
    change (positionB (place central host neighbour uvw))
      with (plate_vec (place central host neighbour uvw)
            - SetMag (Cross (plate_vec (place central host neighbour uvw)
                              - pl_host_vec (place central host neighbour uvw))%vec
                        (vec_to_centre (place central host neighbour uvw))) 1
              * fibre_separation)%vec.
    rewrite Hcross, SetMag_zero, add_zero_scaled, sub_zero_scaled. auto.
Qed.

(** X23.  When the placement returns, [plate_vec] is the host
    vector plus [cent_to_neig_unit] scaled by [hex_radius + plate_height].
    When the neighbour vector differs from the central vector,
    [cent_to_neig_unit] is the unit vector from the central to the
    neighbour vector; when they coincide it is the zero vector and
    [plate_vec] is the host vector.  The constants are hex_size = 17.05,
    plate_height = 0.52, hex_radius = hex_size * cos(30 degrees),
    fibre_separation = 0.51. *)
Theorem plate_vec_offset host_hex neighbour_hex rows p :
  calc_fibre_locals pyfloat pyint PANELINFO host_hex neighbour_hex rows = Some p ->
  (exists number,
     get_pmt_coordinates pyfloat pyint host_hex neighbour_hex rows
     = Some (vec_from_centre p, pl_host_vec p, pl_neighbour_vec p, number)) /\
  plate_vec p
    = (pl_host_vec p + cent_to_neig_unit p * (hex_radius + plate_height))%vec /\
  (pl_neighbour_vec p <> vec_from_centre p ->
     Mag (cent_to_neig_unit p) = 1 /\
     cent_to_neig_unit p
       = ((pl_neighbour_vec p - vec_from_centre p)
          * / Mag (pl_neighbour_vec p - vec_from_centre p))%vec) /\
  (pl_neighbour_vec p = vec_from_centre p ->
     cent_to_neig_unit p = zero /\ plate_vec p = pl_host_vec p) /\
  hex_size = 17.05 /\ plate_height = 0.52 /\
  hex_radius = hex_size * cos (PI / 6) /\ fibre_separation = 0.51.
Proof.
  intros Hp.
  apply calc_fibre_locals_Some in Hp
    as (central & host & neighbour & number & uvw & Hc & _ & ->).
  split; [exists number; exact Hc |]. split; [reflexivity |].
  change (cent_to_neig_unit (place central host neighbour uvw))
    with (SetMag (neighbour - central)%vec 1).
  change (pl_neighbour_vec (place central host neighbour uvw)) with neighbour.
  change (vec_from_centre (place central host neighbour uvw)) with central.
  change (pl_host_vec (place central host neighbour uvw)) with host.
  split; [| split].
  - intros Hne.
    assert ((neighbour - central)%vec <> zero) as Hnz
      by (intros H; apply Hne, sub_zero_inv, H).
    split; [apply SetMag_unit, Hnz | apply SetMag_scale, Hnz].
  - intros ->. split.
    + rewrite sub_self. apply SetMag_zero.
    + apply (place_neighbour_central central host uvw).
  - split; [reflexivity |]. split; [apply plate_height_value |].
    split; [| reflexivity].
    unfold hex_radius. rewrite thirty_degrees. reflexivity.
Qed.

(** No unit vector scaled by a positive length leads from a point to
    itself. *)
Lemma no_unit_offset host u k :
  0 < k -> Mag u = 1 -> host <> (host + u * k)%vec.
Proof.
  intros Hk Hu H.
  assert (Mag (u * k)%vec = 0) as Hz.
  { replace (u * k)%vec with zero; [apply Mag_zero |].
    destruct host as [hx hy hz], u as [x y z].
    unfold add, scale, zero in *. simpl in *.
    injection H as Hx Hy Hz. f_equal; lra. }
  rewrite Mag_scale, Hu in Hz. rewrite Rabs_right in Hz; lra.
Qed.

(** C1 fails on the code where the neighbour vector is the central vector
    (the host is the central cell of its panel and has no neighbour, or the
    neighbour is that cell).  The source takes [cent_to_neig_unit] and
    [curve_correction] for unit vectors, but [SetMag] leaves the zero vector
    as it is: both fibres are put on the host cell, at distance 0 and not
    [2 * fibre_separation]. *)
Theorem central_neighbour_collapses_pair host_hex neighbour_hex rows p :
  calc_fibre_locals pyfloat pyint PANELINFO host_hex neighbour_hex rows = Some p ->
  pl_neighbour_vec p = vec_from_centre p ->
  calc_fibre_placement pyfloat pyint PANELINFO host_hex neighbour_hex rows
    = Some (pl_host_vec p, pl_host_vec p) /\
  curve_correction p = zero /\
  Mag (positionA p - positionB p)%vec = 0 /\
  Mag (positionA p - positionB p)%vec <> 2 * fibre_separation.
Proof.
  intros Hp Hnc.
  rewrite (calc_fibre_placement_locals _ _ _ _ _ _ _ Hp).
  apply calc_fibre_locals_Some in Hp
    as (central & host & neighbour & number & uvw & _ & _ & ->).
  change (pl_neighbour_vec (place central host neighbour uvw)) with neighbour
    in Hnc.
  change (vec_from_centre (place central host neighbour uvw)) with central in Hnc.
  subst neighbour.
  destruct (place_neighbour_central central host uvw) as (Hplate & HA & HB).
  cbv zeta in Hplate, HA, HB. rewrite HA, HB.
  change (pl_host_vec (place central host central uvw)) with host.
  split; [reflexivity |]. split.
  - simpl. rewrite sub_self, SetMag_zero, add_zero_scaled, sub_self,
      Cross_zero_l. apply SetMag_zero.
  - rewrite sub_self, Mag_zero. split; [reflexivity |].
    pose proof fibre_separation_pos. lra.
Qed.

(** C2 fails on the code at the same placements, by the same defect: where
    the neighbour vector is the central vector, [cent_to_neig_unit] is not
    the unit vector the source takes it for but the zero vector, the plate
    stays on the host cell, and no unit vector scaled by
    [hex_radius + plate_height] leads there. *)
Theorem central_neighbour_leaves_plate host_hex neighbour_hex rows p :
  calc_fibre_locals pyfloat pyint PANELINFO host_hex neighbour_hex rows = Some p ->
  pl_neighbour_vec p = vec_from_centre p ->
  cent_to_neig_unit p = zero /\
  Mag (cent_to_neig_unit p) <> 1 /\
  plate_vec p = pl_host_vec p /\
  ~ exists u, Mag u = 1 /\
      plate_vec p = (pl_host_vec p + u * (hex_radius + plate_height))%vec.
Proof.
  intros Hp Hnc.
  apply calc_fibre_locals_Some in Hp
    as (central & host & neighbour & number & uvw & _ & _ & ->).
  change (pl_neighbour_vec (place central host neighbour uvw)) with neighbour
    in Hnc.
  change (vec_from_centre (place central host neighbour uvw)) with central in Hnc.
  subst neighbour.
  destruct (place_neighbour_central central host uvw) as (Hplate & _).
  cbv zeta in Hplate. rewrite Hplate.
  change (pl_host_vec (place central host central uvw)) with host.
  assert (cent_to_neig_unit (place central host central uvw) = zero) as Hunit
    by (simpl; rewrite sub_self; apply SetMag_zero).
  rewrite Hunit, Mag_zero.
  split; [reflexivity |]. split; [lra |]. split; [reflexivity |].
  intros (u & Hu & H).
  apply (no_unit_offset host u (hex_radius + plate_height) plate_offset_pos Hu H).
Qed.

End PlacementClaims.

Section PlacementExamples.

Import TVector3.

(** At the demo installation, host [H001] and neighbour [H002]: the
    positions are 1.02 cm apart. *)
Lemma positions_symmetric_about_plate_witness :
  ((positionA Demo.placed + positionB Demo.placed) * (1 / 2))%vec
    = plate_vec Demo.placed /\
  Mag (positionA Demo.placed - positionB Demo.placed)%vec = 2 * fibre_separation.
Proof.
  destruct (positions_symmetric_about_plate Demo.digits_float Demo.digits_int
              Demo.panelinfo "H001" "H002" Demo.rows Demo.placed demo_locals)
    as (_ & Hmid & Hsep & _).
  split; [exact Hmid |]. apply Hsep, demo_cross_nonzero.
Defined.

(** Host [H001] is the central cell of its panel and no neighbour is
    listed: both fibres are put on the host cell. *)
Lemma central_neighbour_collapses_pair_witness :
  calc_fibre_placement Demo.digits_float Demo.digits_int Demo.panelinfo
    "H001" "none" Demo.rows
  = Some (mk 100 0 0, mk 100 0 0) /\
  Mag (positionA Demo.stuck - positionB Demo.stuck)%vec <> 2 * fibre_separation.
Proof.
  destruct (central_neighbour_collapses_pair Demo.digits_float Demo.digits_int
              Demo.panelinfo "H001" "none" Demo.rows Demo.stuck
              demo_locals_none eq_refl)
    as (Hplace & _ & _ & Hdist).
  split; [exact Hplace | exact Hdist].
Defined.

(** At the demo installation, host [H001] and neighbour [H002]. *)
Lemma plate_vec_offset_witness :
  plate_vec Demo.placed
    = (pl_host_vec Demo.placed
       + cent_to_neig_unit Demo.placed * (hex_radius + plate_height))%vec /\
  Mag (cent_to_neig_unit Demo.placed) = 1.
Proof.
  destruct (plate_vec_offset Demo.digits_float Demo.digits_int
              Demo.panelinfo "H001" "H002" Demo.rows Demo.placed demo_locals)
    as (_ & Hplate & Hunit & _).
  split; [exact Hplate |]. apply Hunit.
  simpl. intros [= H]. lra.
Defined.

(** At the same input the plate stays on the host cell. *)
Lemma central_neighbour_leaves_plate_witness :
  calc_fibre_locals Demo.digits_float Demo.digits_int Demo.panelinfo
    "H001" "none" Demo.rows = Some Demo.stuck /\
  plate_vec Demo.stuck = mk 100 0 0 /\
  ~ exists u, Mag u = 1 /\
      plate_vec Demo.stuck
      = (pl_host_vec Demo.stuck + u * (hex_radius + plate_height))%vec.
Proof.
  split; [exact demo_locals_none |].
  destruct (central_neighbour_leaves_plate Demo.digits_float Demo.digits_int
              Demo.panelinfo "H001" "none" Demo.rows Demo.stuck
              demo_locals_none eq_refl)
    as (_ & _ & Hplate & Hno).
  split; [exact Hplate | exact Hno].
Defined.

End PlacementExamples.

(** ** Claims on the coordinate table *)

Section TableClaims.

Variable pyfloat : string -> option R.
Variable pyint : string -> option Z.

(** *** What the second loop collects *)

Lemma is_empty_row_false row : is_empty_row row = false <-> row <> [].
Proof. destruct row; simpl; split; congruence. Qed.

Lemma collect_row_listed name pm row k pos :
  lists_cell pyfloat pyint name row k pos ->
  collect_row pyfloat pyint (Some name) pm row = Some (<[k := pos]> pm).
Proof.
  intros (Hrow & cell & Hcell & Hname & Hpos & Hk).
  unfold collect_row. apply is_empty_row_false in Hrow. rewrite Hrow.
  cbv zeta. rewrite Hcell. simpl.
  apply String.eqb_eq in Hname. rewrite Hname, Hpos. simpl.
  rewrite Hk. reflexivity.
Qed.

Lemma collect_row_inv name pm row pm' :
  collect_row pyfloat pyint (Some name) pm row = Some pm' ->
  pm' = pm \/
  exists k pos, lists_cell pyfloat pyint name row k pos /\ pm' = <[k := pos]> pm.
Proof.
  unfold collect_row. destruct (is_empty_row row) eqn:Hrow.
  { intros [= <-]. auto. }
  cbv zeta. destruct (filter_None row !! 6%nat) as [cell |] eqn:Hcell;
    [| discriminate].
  simpl. destruct (String.eqb (str_take 4 cell) name) eqn:Hname.
  2: { intros [= <-]. auto. }
  destruct (row_position pyfloat (filter_None row)) as [pos |] eqn:Hpos;
    [| discriminate].
  simpl. destruct (pyint (str_last 2 cell)) as [k |] eqn:Hk; [| discriminate].
  simpl. intros [= <-]. right. exists k, pos. split; [| reflexivity].
  split; [apply is_empty_row_false, Hrow |].
  exists cell. apply String.eqb_eq in Hname. auto.
Qed.

(** Every cell collected is listed by a line of the file. *)
Lemma collect_rows_listed name rows : forall pm0 pm k pos,
  collect_rows pyfloat pyint (Some name) pm0 rows = Some pm ->
  pm !! k = Some pos ->
  pm0 !! k = Some pos \/
  exists row, In row rows /\ lists_cell pyfloat pyint name row k pos.
Proof.
  induction rows as [| row rows IH]; intros pm0 pm k pos Hrun Hk.
  - injection Hrun as <-. auto.
  - simpl in Hrun.
    destruct (collect_row pyfloat pyint (Some name) pm0 row) as [pm1 |] eqn:Hrow;
      [| discriminate].
    simpl in Hrun.
    destruct (IH _ _ _ _ Hrun Hk) as [Hk1 | (row' & Hin & Hlist)].
    2: { right. exists row'. split; [right; exact Hin | exact Hlist]. }
    apply collect_row_inv in Hrow as [-> | (k' & pos' & Hlist & ->)]; [auto |].
    destruct (decide (k' = k)) as [-> | Hne].
    + rewrite lookup_insert_eq in Hk1. injection Hk1 as ->.
      right. exists row. split; [left; reflexivity | exact Hlist].
    + rewrite lookup_insert_ne in Hk1 by exact Hne. auto.
Qed.

(** Every cell number that is there or listed is collected. *)
Lemma collect_rows_keeps name rows : forall pm0 pm k,
  collect_rows pyfloat pyint (Some name) pm0 rows = Some pm ->
  is_Some (pm0 !! k) -> is_Some (pm !! k).
Proof.
  induction rows as [| row rows IH]; intros pm0 pm k Hrun Hk.
  - injection Hrun as <-. exact Hk.
  - simpl in Hrun.
    destruct (collect_row pyfloat pyint (Some name) pm0 row) as [pm1 |] eqn:Hrow;
      [| discriminate].
    simpl in Hrun. apply (IH _ _ _ Hrun).
    apply collect_row_inv in Hrow as [-> | (k' & pos' & _ & ->)]; [exact Hk |].
    destruct (decide (k' = k)) as [-> | Hne].
    + rewrite lookup_insert_eq. eauto.
    + rewrite lookup_insert_ne by exact Hne. exact Hk.
Qed.

Lemma collect_rows_complete name rows : forall pm0 pm row k pos,
  collect_rows pyfloat pyint (Some name) pm0 rows = Some pm ->
  In row rows -> lists_cell pyfloat pyint name row k pos ->
  is_Some (pm !! k).
Proof.
  induction rows as [| row' rows IH]; intros pm0 pm row k pos Hrun Hin Hlist.
  - destruct Hin.
  - simpl in Hrun.
    destruct (collect_row pyfloat pyint (Some name) pm0 row') as [pm1 |] eqn:Hrow;
      [| discriminate].
    simpl in Hrun. destruct Hin as [-> | Hin].
    + rewrite (collect_row_listed _ _ _ _ _ Hlist) in Hrow.
      injection Hrow as <-.
      apply (collect_rows_keeps _ _ _ _ _ Hrun).
      rewrite lookup_insert_eq. eauto.
    + apply (IH _ _ _ _ _ Hrun Hin Hlist).
Qed.

(** The designated cell missing is a [KeyError]. *)
Lemma central_pmt_missing (panel_pmts : gmap Z (list R)) :
  panel_pmts !! (if (9 <? size panel_pmts)%nat then 10 else 4)%Z = None ->
  central_pmt panel_pmts = None.
Proof. unfold central_pmt. destruct (9 <? size panel_pmts)%nat; auto. Qed.


End TableClaims.

Section TableExamples.

Import TVector3.


Variables c1 c2 c3 c4 c5 c6 c7 c8 c9 c10 c11 c12 : list R.

(** A panel of the cells 1 to 7 selects cell 4. *)
Example central_of_seven :
  central_pmt (list_to_map [(1, c1); (2, c2); (3, c3); (4, c4); (5, c5);
                            (6, c6); (7, c7)]%Z) = Some c4.
Proof. reflexivity. Qed.

(** A panel of the cells 1 to 12 selects cell 10. *)
Example central_of_twelve :
  central_pmt (list_to_map [(1, c1); (2, c2); (3, c3); (4, c4); (5, c5);
                            (6, c6); (7, c7); (8, c8); (9, c9); (10, c10);
                            (11, c11); (12, c12)]%Z) = Some c10.
Proof. reflexivity. Qed.

(** The size is the number of distinct cell numbers: nine cells and cell 10
    make ten, and cell 10 is selected. *)
Example central_of_ten :
  central_pmt (list_to_map [(1, c1); (2, c2); (3, c3); (4, c4); (5, c5);
                            (6, c6); (7, c7); (8, c8); (9, c9); (10, c10)]%Z)
  = Some c10.
Proof. reflexivity. Qed.

End TableExamples.

(** ** The "no neighbour" entry *)

Section Sentinel.

Variable pyfloat : string -> option R.
Variable pyint : string -> option Z.
Variable PANELINFO : PanelInfo.

Lemma get_pmt_coordinates_none host_hex neighbour_hex rows :
  str_in "none" neighbour_hex = true ->
  get_pmt_coordinates pyfloat pyint host_hex neighbour_hex rows
  = get_pmt_coordinates pyfloat pyint host_hex host_hex rows.
Proof.
  intros H. unfold get_pmt_coordinates. rewrite H.
  destruct (str_in "none" host_hex); reflexivity.
Qed.

(** C4.  With a neighbour identifier that contains "none" the placement
    returns what it returns with the host identifier as neighbour, the
    same pair of positions or the same failure. *)
Theorem no_neighbour_is_host host_hex neighbour_hex rows :
  str_in "none" neighbour_hex = true ->
  calc_fibre_placement pyfloat pyint PANELINFO host_hex neighbour_hex rows
  = calc_fibre_placement pyfloat pyint PANELINFO host_hex host_hex rows.
Proof.
  intros H. unfold calc_fibre_placement, calc_fibre_locals.
  rewrite (get_pmt_coordinates_none _ _ _ H). reflexivity.
Qed.

End Sentinel.

Lemma demo_coordinates_H003 :
  get_pmt_coordinates Demo.digits_float Demo.digits_int "H003" "H003" Demo.rows
  = Some (TVector3.mk 100 0 0, TVector3.mk 100 0 20, TVector3.mk 100 0 20, 1%Z).
Proof. vm_compute. reflexivity. Qed.

(** At the demo installation, with host [H003]: both calls return, and
    return the same. *)
Lemma no_neighbour_is_host_witness :
  is_Some (calc_fibre_placement Demo.digits_float Demo.digits_int
             Demo.panelinfo "H003" "H003" Demo.rows) /\
  calc_fibre_placement Demo.digits_float Demo.digits_int Demo.panelinfo
    "H003" "none" Demo.rows
  = calc_fibre_placement Demo.digits_float Demo.digits_int Demo.panelinfo
    "H003" "H003" Demo.rows.
Proof.
  split.
  - unfold calc_fibre_placement, calc_fibre_locals.
    rewrite demo_coordinates_H003. eexists. reflexivity.
  - apply (no_neighbour_is_host Demo.digits_float Demo.digits_int
             Demo.panelinfo "H003" "none" Demo.rows).
    reflexivity.
Defined.

(** ** Runs *)

Lemma run_bind_Some {A B} (m : Run A) (k : A -> Run B) a :
  result m = Some a ->
  (m ≫= k) = mkRun (trace m ++ trace (k a)) (result (k a)).
Proof. unfold mbind, Run_bind, run_bind. intros ->. reflexivity. Qed.

Lemma run_bind_None {A B} (m : Run A) (k : A -> Run B) :
  result m = None -> (m ≫= k) = mkRun (trace m) None.
Proof. unfold mbind, Run_bind, run_bind. intros ->. reflexivity. Qed.

(** ** The validator *)

Section ValidatorClaims.

Import TVector3.

Variable pyfloat : string -> option R.
Variable pyint : string -> option Z.
Variable PANELINFO : PanelInfo.

(** One turn of the validator.  For a fibre with a recorded position ([x],
    [y], [z] in its table)
    whose placement returns, the validator prints the discrepancy exactly
    when the recorded [x] divided by 10 and the computed [x] differ by more
    than 1 in absolute value, and prints nothing otherwise, whatever [y]
    and [z] are.  The computed position is [posB] when the identifier ends
    in "B" and [posA] otherwise. *)
Theorem discrepancy_on_x_only pmt_hex neighbour_hex rows db fibre
    host neighbour posA posB table x y z c :
  pmt_hex !! fibre = Some host ->
  neighbour_hex !! fibre = Some neighbour ->
  calc_fibre_placement pyfloat pyint PANELINFO host neighbour rows
    = Some (posA, posB) ->
  db !! fibre = Some table ->
  GetD table "x" = Some x -> GetD table "y" = Some y -> GetD table "z" = Some z ->
  str_final fibre = Some c ->
  let pos := if Ascii.eqb c "B" then posB else posA in
  let run := compare_fibre pyfloat pyint PANELINFO pmt_hex neighbour_hex rows db
               fibre in
  result run = Some tt /\
  (Rabs (x / 10 - fX pos) > 1 ->
   trace run = [PrintBanner; PrintFibre fibre; PrintHostNeighbour host neighbour;
                PrintDatabase (x / 10) (y / 10) (z / 10);
                PrintCalculated (fX pos) (fY pos) (fZ pos)]) /\
  (~ Rabs (x / 10 - fX pos) > 1 -> trace run = []).
Proof.
  intros Hhost Hneighbour Hplace Htable Hx Hy Hz Hc pos run.
  unfold run, compare_fibre. rewrite Hhost, Hneighbour. simpl.
  rewrite Hplace, Htable. simpl. rewrite Hx, Hy, Hz.
  unfold is_B. rewrite Hc. simpl.
  fold pos.
  destruct (Rgt_dec (Rabs (x / 10 - fX pos)) 1) as [Hgt | Hle]; simpl.
  - split; [reflexivity |]. split; [reflexivity | contradiction].
  - split; [reflexivity |]. split; [contradiction | reflexivity].
Qed.

End ValidatorClaims.

Section ValidatorExamples.

Import TVector3.

(** Fibre [FS007] is recorded 20 cm from its computed position along [x]:
    the discrepancy is printed. *)
Lemma discrepancy_on_x_only_witness :
  trace (compare_fibre Demo.digits_float Demo.digits_int Demo.panelinfo
           Demo.pmt_hex Demo.neighbour_hex Demo.rows Demo.db "FS007")
  = [PrintBanner; PrintFibre "FS007"; PrintHostNeighbour "H001" "none";
     PrintDatabase (1200 / 10) (50 / 10) (0 / 10); PrintCalculated 100 0 0].
Proof.
  refine (proj1 (proj2
    (discrepancy_on_x_only Demo.digits_float Demo.digits_int Demo.panelinfo
       Demo.pmt_hex Demo.neighbour_hex Demo.rows Demo.db "FS007"
       "H001" "none" (mk 100 0 0) (mk 100 0 0)
       (mkTable (list_to_map [("x"%string, 1200); ("y"%string, 50);
                              ("z"%string, 0)]) ∅)
       1200 50 0 "7"%char _ _ demo_placement_none _ _ _ _ _)) _);
    try reflexivity.
  simpl. replace (1200 / 10 - 100) with 20 by field.
  rewrite Rabs_right; lra.
Defined.

End ValidatorExamples.

(** ** The pointing angle *)

Section AngleClaims.

Import TVector3.

Variable FIBRE_link : string -> string -> option R.

Lemma Mag2_pos p : p <> zero -> 0 < Mag2 p.
Proof.
  intros Hp. destruct (Mag2_nonneg p) as [H | H]; [exact H |].
  destruct Hp. apply Mag2_zero_inv. symmetry. exact H.
Qed.

Lemma Angle_self p : p <> zero -> Angle p p = 0.
Proof.
  intros Hp. pose proof (Mag2_pos p Hp) as Hm. unfold Angle.
  destruct (Rle_dec (Mag2 p * Mag2 p) 0) as [H | _]; [nra |].
  replace (Dot p p / sqrt (Mag2 p * Mag2 p)) with 1.
  - destruct (Rgt_dec 1 1); [lra |].
    destruct (Rlt_dec 1 (-1)); [lra |]. apply acos_1.
  - rewrite sqrt_square by lra. unfold Dot, Mag2 in *. field. lra.
Qed.

Lemma Angle_opposite p k : p <> zero -> 0 < k -> Angle p (p * - k)%vec = PI.
Proof.
  intros Hp Hk. pose proof (Mag2_pos p Hp) as Hm. unfold Angle.
  assert (Mag2 (p * - k)%vec = k * k * Mag2 p) as ->
    by (unfold Mag2, scale; simpl; ring).
  assert (Dot p (p * - k)%vec = - (k * Mag2 p)) as ->
    by (unfold Dot, Mag2, scale; simpl; ring).
  assert (0 < k * Mag2 p) as Hkm by nra.
  replace (Mag2 p * (k * k * Mag2 p)) with ((k * Mag2 p) * (k * Mag2 p)) by ring.
  destruct (Rle_dec (k * Mag2 p * (k * Mag2 p)) 0) as [H | _]; [nra |].
  rewrite sqrt_square by lra.
  replace (- (k * Mag2 p) / (k * Mag2 p)) with (-1) by (field; lra).
  destruct (Rgt_dec (-1) 1); [lra |].
  destruct (Rlt_dec (-1) (-1)); [lra |].
  replace (-1) with (Ropp 1) by lra.
  rewrite acos_opp, acos_1. ring.
Qed.

Lemma Angle_zero_l q : Angle zero q = 0.
Proof.
  unfold Angle.
  destruct (Rle_dec (Mag2 zero * Mag2 q) 0) as [_ | H]; [reflexivity |].
  destruct H. unfold Mag2 at 1, zero. simpl. lra.
Qed.

Lemma angle_between_self p : angle_between p p = 180.
Proof.
  unfold angle_between.
  assert (Angle p p = 0) as ->; [| lra].
  destruct (Req_dec_T (Mag2 p) 0) as [H | H].
  - apply Mag2_zero_inv in H as ->. apply Angle_zero_l.
  - apply Angle_self. intros ->. apply H. unfold Mag2, zero. simpl. ring.
Qed.

Lemma angle_between_opposite p k :
  p <> zero -> 0 < k -> angle_between p (p * - k)%vec = 0.
Proof.
  intros Hp Hk. unfold angle_between. rewrite Angle_opposite by assumption.
  field. apply PI_neq0.
Qed.

(** The two ways [get_pointing_angle] ends. *)
Lemma get_pointing_angle_read fibre central pointing :
  link_vector FIBRE_link fibre "x" "y" "z" = Some central ->
  link_vector FIBRE_link fibre "u" "v" "w" = Some pointing ->
  get_pointing_angle FIBRE_link fibre
  = mkRun [] (Some (angle_between central pointing)).
Proof.
  intros Hc Hp. unfold get_pointing_angle. rewrite Hc, Hp. reflexivity.
Qed.

Lemma get_pointing_angle_unread fibre :
  link_vector FIBRE_link fibre "x" "y" "z" = None \/
  link_vector FIBRE_link fibre "u" "v" "w" = None ->
  get_pointing_angle FIBRE_link fibre = mkRun [PrintNoReference fibre] None.
Proof.
  unfold get_pointing_angle. intros [H | H].
  - rewrite H. reflexivity.
  - rewrite H. destruct (link_vector FIBRE_link fibre "x" "y" "z"); reflexivity.
Qed.

(** C6, amended.  For a fibre whose recorded pointing vector is its recorded
    position vector, [get_pointing_angle] returns 180; for a fibre whose
    recorded pointing vector is exactly antiparallel to its (non-zero)
    position vector it returns 0. *)
Theorem pointing_angle_extremes fibre central pointing :
  link_vector FIBRE_link fibre "x" "y" "z" = Some central ->
  link_vector FIBRE_link fibre "u" "v" "w" = Some pointing ->
  (pointing = central ->
     get_pointing_angle FIBRE_link fibre = mkRun [] (Some 180)) /\
  (forall k, central <> zero -> 0 < k -> pointing = (central * - k)%vec ->
     get_pointing_angle FIBRE_link fibre = mkRun [] (Some 0)).
Proof.
  intros Hc Hp.
  rewrite (get_pointing_angle_read _ _ _ Hc Hp). split.
  - intros ->. rewrite angle_between_self. reflexivity.
  - intros k Hnz Hk ->. rewrite angle_between_opposite by assumption.
    reflexivity.
Qed.

End AngleClaims.

Section AngleExamples.

Import TVector3.

Lemma demo_aims_at_centre :
  mk (-1200) (-50) 0 = (mk 1200 50 0 * Ropp 1)%vec.
Proof. unfold scale. simpl. f_equal; ring. Qed.

Lemma demo_off_centre : mk 1200 50 0 <> zero.
Proof. intros [= H _]. lra. Qed.

(** Fibre [FS008] aims along its position vector, fibre [FS007] against
    it. *)
Lemma pointing_angle_extremes_witness :
  get_pointing_angle Demo.link "FS008" = mkRun [] (Some 180) /\
  get_pointing_angle Demo.link "FS007" = mkRun [] (Some 0).
Proof.
  split.
  - apply (pointing_angle_extremes Demo.link "FS008" (mk 0 0 800) (mk 0 0 800));
      reflexivity.
  - apply (pointing_angle_extremes Demo.link "FS007" (mk 1200 50 0)
             (mk (-1200) (-50) 0) eq_refl eq_refl) with (k := 1).
    + exact demo_off_centre.
    + lra.
    + exact demo_aims_at_centre.
Defined.

(** C6 as stated fails: the antiparallel fibre [FS007] gets 0, not 180, and
    the parallel fibre [FS008] gets 180, not 0. *)
Lemma pointing_angle_counterexample :
  (link_vector Demo.link "FS007" "u" "v" "w"
     = Some (mk (-1200) (-50) 0) /\
   link_vector Demo.link "FS007" "x" "y" "z" = Some (mk 1200 50 0) /\
   result (get_pointing_angle Demo.link "FS007") = Some 0 /\ 0 <> 180) /\
  (link_vector Demo.link "FS008" "u" "v" "w" = Some (mk 0 0 800) /\
   link_vector Demo.link "FS008" "x" "y" "z" = Some (mk 0 0 800) /\
   result (get_pointing_angle Demo.link "FS008") = Some 180 /\ 180 <> 0).
Proof.
  split.
  - split; [reflexivity |]. split; [reflexivity |]. split; [| lra].
    rewrite (get_pointing_angle_read Demo.link "FS007" (mk 1200 50 0)
               (mk (-1200) (-50) 0) eq_refl eq_refl).
    rewrite demo_aims_at_centre, angle_between_opposite;
      [reflexivity | exact demo_off_centre | lra].
  - split; [reflexivity |]. split; [reflexivity |]. split; [| lra].
    rewrite (get_pointing_angle_read Demo.link "FS008" (mk 0 0 800)
               (mk 0 0 800) eq_refl eq_refl).
    rewrite angle_between_self. reflexivity.
Qed.

End AngleExamples.

(** ** The new database files *)

Section OutputClaims.

Variable FIBRE_link : string -> string -> option R.

(** The rounding: a multiple of ten, at most five away. *)
Lemma round_half_away_near x :
  - (1 / 2) <= IZR (round_half_away x) - x <= 1 / 2.
Proof.
  unfold round_half_away. destruct (Rle_dec 0 x) as [Hx | Hx].
  - destruct (base_Int_part (x + 1 / 2)) as [H1 H2]. lra.
  - destruct (base_Int_part (- x + 1 / 2)) as [H1 H2].
    rewrite opp_IZR. lra.
Qed.

Lemma round_tens_nearest x :
  (10 | round_tens x)%Z /\ Rabs (IZR (round_tens x) - x) <= 5.
Proof.
  unfold round_tens. split; [apply Z.divide_factor_r |].
  rewrite mult_IZR. pose proof (round_half_away_near (x / 10)) as H.
  apply Rabs_le. lra.
Qed.

(** The angle is found, or the fibre is skipped with a message. *)
Lemma fibre_angle_cases fibre :
  (exists angle,
     (10 | angle)%Z /\
     fibre_angle FIBRE_link fibre = mkRun [] (Some (Some angle))) \/
  fibre_angle FIBRE_link fibre = mkRun [PrintNoReference fibre] (Some None).
Proof.
  unfold fibre_angle.
  destruct (String.eqb (str_take 2 fibre) "FT").
  { left. exists 0%Z. split; [apply Z.divide_0_r | reflexivity]. }
  destruct (link_vector FIBRE_link fibre "x" "y" "z") as [c |] eqn:Hc.
  - destruct (link_vector FIBRE_link fibre "u" "v" "w") as [p |] eqn:Hp.
    + rewrite (get_pointing_angle_read _ _ _ _ Hc Hp).
      left. eexists. split; [apply round_tens_nearest | reflexivity].
    + rewrite get_pointing_angle_unread by auto. right. reflexivity.
  - rewrite get_pointing_angle_unread by auto. right. reflexivity.
Qed.

Lemma new_db_file_written nodes db fibre fname tb :
  In (SaveAs fname tb) (trace (new_db_file FIBRE_link nodes db fibre)) ->
  exists table node angle,
    db !! fibre = Some table /\ nodes !! fibre = Some node /\
    result (fibre_angle FIBRE_link fibre) = Some (Some angle) /\
    (10 | angle)%Z /\
    fname = ("./new_tables/" +:+ fibre +:+ ".json") /\
    tb = updated table node angle.
Proof.
  unfold new_db_file.
  destruct (fibre_angle_cases fibre) as [(angle & Hten & ->) | ->].
  - destruct (db !! fibre) as [table |] eqn:Htable.
    2: { simpl. intros []. }
    destruct (nodes !! fibre) as [node |] eqn:Hnode.
    2: { simpl. intros []. }
    simpl. intros [[= <- <-] | []].
    exists table, node, angle. repeat split; auto.
  - simpl. intros [[=] | []].
Qed.

Lemma make_new_db_files_written nodes fibres : forall db fname tb,
  In (SaveAs fname tb) (trace (make_new_db_files FIBRE_link nodes fibres db)) ->
  exists fibre db',
    In fibre fibres /\
    In (SaveAs fname tb) (trace (new_db_file FIBRE_link nodes db' fibre)).
Proof.
  induction fibres as [| fibre fibres IH]; intros db fname tb Hin.
  - destruct Hin.
  - simpl in Hin.
    destruct (result (new_db_file FIBRE_link nodes db fibre)) as [db1 |] eqn:Hres.
    + rewrite (run_bind_Some _ _ _ Hres) in Hin. simpl in Hin.
      apply in_app_or in Hin as [Hin | Hin].
      * exists fibre, db. split; [left; reflexivity | exact Hin].
      * destruct (IH _ _ _ Hin) as (fibre' & db' & Hf & Hw).
        exists fibre', db'. split; [right; exact Hf | exact Hw].
    + rewrite (run_bind_None _ _ Hres) in Hin. simpl in Hin.
      exists fibre, db. split; [left; reflexivity | exact Hin].
Qed.

Lemma updated_fields table node angle :
  tblI (updated table node angle) !! "psup_pannel" = Some node /\
  tblI (updated table node angle) !! "pointing_angle" = Some angle /\
  tblI (updated table node angle) !! "fibre_status" = Some 0%Z /\
  forall field,
    field <> "psup_pannel" -> field <> "pointing_angle" ->
    field <> "fibre_status" ->
    tblI (updated table node angle) !! field = tblI table !! field.
Proof.
  unfold updated, SetI. simpl. repeat split.
  - rewrite !lookup_insert_ne by discriminate. apply lookup_insert_eq.
  - rewrite lookup_insert_ne by discriminate. apply lookup_insert_eq.
  - apply lookup_insert_eq.
  - intros field H1 H2 H3. rewrite !lookup_insert_ne by congruence. reflexivity.
Qed.

(** The angle of a plate fibre.  For a fibre whose identifier starts with
    "FT" the angle is 0 and
    nothing of the database is read or printed for it, whatever the
    database holds; every table written for the fibre has pointing angle
    0. *)
Theorem fixed_mount_angle_zero fibre :
  str_take 2 fibre = "FT" ->
  fibre_angle FIBRE_link fibre = mkRun [] (Some (Some 0%Z)) /\
  forall nodes db fname tb,
    In (SaveAs fname tb) (trace (new_db_file FIBRE_link nodes db fibre)) ->
    tblI tb !! "pointing_angle" = Some 0%Z.
Proof.
  intros HFT.
  assert (fibre_angle FIBRE_link fibre = mkRun [] (Some (Some 0%Z))) as Hangle.
  { unfold fibre_angle. rewrite HFT. reflexivity. }
  split; [exact Hangle |].
  intros nodes db fname tb Hin.
  apply new_db_file_written in Hin
    as (table & node & angle & _ & _ & Ha & _ & _ & ->).
  rewrite Hangle in Ha. injection Ha as <-.
  apply updated_fields.
Qed.

(** C10.  Every table [make_new_db_files] writes has [fibre_status] 0. *)
Theorem fibre_status_always_zero nodes fibres db fname tb :
  In (SaveAs fname tb) (trace (make_new_db_files FIBRE_link nodes fibres db)) ->
  tblI tb !! "fibre_status" = Some 0%Z.
Proof.
  intros Hin.
  apply make_new_db_files_written in Hin as (fibre & db' & _ & Hin).
  apply new_db_file_written in Hin
    as (table & node & angle & _ & _ & _ & _ & _ & ->).
  apply updated_fields.
Qed.

(** A turn of the loop leaves the fields [psup_panel] of the database as
    they are. *)
Lemma new_db_file_psup_panel nodes db fibre db1 :
  result (new_db_file FIBRE_link nodes db fibre) = Some db1 ->
  forall f, psup_panel_of db1 f = psup_panel_of db f.
Proof.
  unfold new_db_file.
  destruct (fibre_angle_cases fibre) as [(angle & _ & ->) | ->].
  - destruct (db !! fibre) as [table |] eqn:Htable; [| discriminate].
    destruct (nodes !! fibre) as [node |] eqn:Hnode; [| discriminate].
    simpl. intros [= <-] f. unfold psup_panel_of.
    destruct (decide (fibre = f)) as [<- | Hne].
    + rewrite lookup_insert_eq, Htable. simpl.
      apply (updated_fields table node angle); discriminate.
    + rewrite lookup_insert_ne by exact Hne. reflexivity.
  - simpl. intros [= <-] f. reflexivity.
Qed.

(** C9 fails on the code: the panel is written to the field
    [psup_pannel].  Every table written carries the node of its fibre
    under that name, a pointing angle that is a multiple of ten and the
    status 0; its field [psup_panel] is the one the database had for the
    fibre before the run, if any. *)
Theorem psup_panel_never_written nodes fibres : forall db fname tb,
  In (SaveAs fname tb) (trace (make_new_db_files FIBRE_link nodes fibres db)) ->
  exists fibre angle,
    In fibre fibres /\
    fname = ("./new_tables/" +:+ fibre +:+ ".json") /\
    tblI tb !! "psup_pannel" = nodes !! fibre /\
    tblI tb !! "pointing_angle" = Some angle /\ (10 | angle)%Z /\
    tblI tb !! "fibre_status" = Some 0%Z /\
    tblI tb !! "psup_panel" = psup_panel_of db fibre.
Proof.
  induction fibres as [| fibre fibres IH]; intros db fname tb Hin.
  - destruct Hin.
  - simpl in Hin.
    assert (In (SaveAs fname tb) (trace (new_db_file FIBRE_link nodes db fibre))
            -> exists fibre0 angle,
                In fibre0 (fibre :: fibres) /\
                fname = ("./new_tables/" +:+ fibre0 +:+ ".json") /\
                tblI tb !! "psup_pannel" = nodes !! fibre0 /\
                tblI tb !! "pointing_angle" = Some angle /\ (10 | angle)%Z /\
                tblI tb !! "fibre_status" = Some 0%Z /\
                tblI tb !! "psup_panel" = psup_panel_of db fibre0) as Hfirst.
    { intros Hw.
      apply new_db_file_written in Hw
        as (table & node & angle & Htable & Hnode & _ & Hten & -> & ->).
      exists fibre, angle. split; [left; reflexivity |]. split; [reflexivity |].
      rewrite Hnode. unfold psup_panel_of. rewrite Htable.
      destruct (updated_fields table node angle) as (H1 & H2 & H3 & H4).
      split; [exact H1 |]. split; [exact H2 |]. split; [exact Hten |].
      split; [exact H3 |]. apply H4; discriminate. }
    destruct (result (new_db_file FIBRE_link nodes db fibre)) as [db1 |] eqn:Hres.
    + rewrite (run_bind_Some _ _ _ Hres) in Hin. simpl in Hin.
      apply in_app_or in Hin as [Hin | Hin]; [auto |].
      destruct (IH _ _ _ Hin)
        as (fibre' & angle & Hf & Hname & Hnode & Hangle & Hten & Hstatus & Hpanel).
      exists fibre', angle. split; [right; exact Hf |].
      repeat split; auto.
      rewrite Hpanel. apply (new_db_file_psup_panel _ _ _ _ Hres).
    + rewrite (run_bind_None _ _ Hres) in Hin. simpl in Hin. auto.
Qed.

End OutputClaims.

Section OutputExamples.

(** [FT001A] is written with the angle 0, though the database has it aim
    along its position vector. *)
Lemma fixed_mount_angle_zero_witness :
  get_pointing_angle Demo.link "FT001A" = mkRun [] (Some 180) /\
  fibre_angle Demo.link "FT001A" = mkRun [] (Some (Some 0%Z)).
Proof.
  split.
  - rewrite (get_pointing_angle_read Demo.link "FT001A" (TVector3.mk 0 0 800)
               (TVector3.mk 0 0 800) eq_refl eq_refl).
    rewrite angle_between_self. reflexivity.
  - apply (fixed_mount_angle_zero Demo.link "FT001A"). reflexivity.
Defined.

Lemma demo_written :
  trace (make_new_db_files Demo.link Demo.nodes ["FT001A"] Demo.db)
  = [SaveAs "./new_tables/FT001A.json" (updated (mkTable ∅ ∅) 12 0)].
Proof. vm_compute. reflexivity. Qed.

Lemma demo_written_in :
  In (SaveAs "./new_tables/FT001A.json" (updated (mkTable ∅ ∅) 12 0))
    (trace (make_new_db_files Demo.link Demo.nodes ["FT001A"] Demo.db)).
Proof. rewrite demo_written. left. reflexivity. Qed.

(** The table written for [FT001A], node 12: the node is under
    [psup_pannel], and there is no field [psup_panel]. *)
Lemma psup_panel_never_written_witness :
  tblI (updated (mkTable ∅ ∅) 12 0) !! "psup_pannel" = Some 12%Z /\
  tblI (updated (mkTable ∅ ∅) 12 0) !! "psup_panel" = None.
Proof.
  destruct (psup_panel_never_written Demo.link Demo.nodes ["FT001A"] Demo.db
              _ _ demo_written_in)
    as (fibre & angle & [<- | []] & _ & Hnode & _ & _ & _ & Hpanel).
  split; [exact Hnode | exact Hpanel].
Defined.

Lemma fibre_status_always_zero_witness :
  tblI (updated (mkTable ∅ ∅) 12 0) !! "fibre_status" = Some 0%Z.
Proof.
  exact (fibre_status_always_zero Demo.link Demo.nodes ["FT001A"] Demo.db
           _ _ demo_written_in).
Defined.

End OutputExamples.

(** ** A cell the file does not list *)

Section BatchClaims.

Variable pyfloat : string -> option R.
Variable pyint : string -> option Z.
Variable PANELINFO : PanelInfo.

Lemma scan_row_unlisted host_hex neighbour_hex st row st' :
  lists_hex host_hex row = false ->
  scan_row pyfloat host_hex neighbour_hex st row = Some st' ->
  host_vec st' = host_vec st /\ panel_name st' = panel_name st.
Proof.
  unfold lists_hex, scan_row.
  destruct (is_empty_row row); simpl.
  { intros _ [= <-]. auto. }
  destruct (filter_None row !! 1%nat) as [id |]; [| discriminate].
  simpl. intros ->.
  destruct (String.eqb (str_take 4 id) neighbour_hex).
  - destruct (row_vector pyfloat (filter_None row)); [| discriminate].
    simpl. intros [= <-]. auto.
  - intros [= <-]. auto.
Qed.

Lemma scan_rows_unlisted host_hex neighbour_hex rows : forall st st',
  existsb (lists_hex host_hex) rows = false ->
  scan_rows pyfloat host_hex neighbour_hex st rows = Some st' ->
  host_vec st' = host_vec st /\ panel_name st' = panel_name st.
Proof.
  induction rows as [| row rows IH]; intros st st' Hrows Hscan.
  - injection Hscan as <-. auto.
  - simpl in Hrows. apply orb_false_iff in Hrows as [Hrow Hrows].
    simpl in Hscan.
    destruct (scan_row pyfloat host_hex neighbour_hex st row) as [st1 |] eqn:H1;
      [| discriminate].
    simpl in Hscan.
    destruct (scan_row_unlisted _ _ _ _ _ Hrow H1) as [Hh Hn].
    destruct (IH _ _ Hrows Hscan) as [Hh' Hn'].
    split; congruence.
Qed.

Lemma scan_row_unlisted_neighbour host_hex neighbour_hex st row st' :
  lists_hex neighbour_hex row = false ->
  scan_row pyfloat host_hex neighbour_hex st row = Some st' ->
  neighbour_vec st' = neighbour_vec st.
Proof.
  unfold lists_hex, scan_row.
  destruct (is_empty_row row); simpl.
  { intros _ [= <-]. reflexivity. }
  destruct (filter_None row !! 1%nat) as [id |]; [| discriminate].
  simpl. intros ->.
  destruct (String.eqb (str_take 4 id) host_hex).
  - destruct (row_vector pyfloat (filter_None row)); [| discriminate]. simpl.
    destruct (filter_None row !! 6%nat); [| discriminate]. simpl.
    intros [= <-]. reflexivity.
  - intros [= <-]. reflexivity.
Qed.

Lemma scan_rows_unlisted_neighbour host_hex neighbour_hex rows : forall st st',
  existsb (lists_hex neighbour_hex) rows = false ->
  scan_rows pyfloat host_hex neighbour_hex st rows = Some st' ->
  neighbour_vec st' = neighbour_vec st.
Proof.
  induction rows as [| row rows IH]; intros st st' Hrows Hscan.
  - injection Hscan as <-. reflexivity.
  - simpl in Hrows. apply orb_false_iff in Hrows as [Hrow Hrows].
    simpl in Hscan.
    destruct (scan_row pyfloat host_hex neighbour_hex st row) as [st1 |] eqn:H1;
      [| discriminate].
    simpl in Hscan.
    rewrite (IH _ _ Hrows Hscan).
    apply (scan_row_unlisted_neighbour _ _ _ _ _ Hrow H1).
Qed.

(** A neighbour the file does not list is no failure: the neighbour vector
    is the host vector. *)
Lemma get_pmt_coordinates_unlisted_neighbour host_hex neighbour_hex rows
    central host neighbour number :
  str_in "none" neighbour_hex = false ->
  hex_listed neighbour_hex rows = false ->
  get_pmt_coordinates pyfloat pyint host_hex neighbour_hex rows
    = Some (central, host, neighbour, number) ->
  neighbour = host.
Proof.
  unfold hex_listed, get_pmt_coordinates. intros -> Hrows.
  destruct (scan_rows _ _ _ _ _) as [st |] eqn:Hscan; [| discriminate].
  pose proof (scan_rows_unlisted_neighbour _ _ _ _ _ Hrows Hscan) as Hn.
  simpl in Hn. simpl. rewrite Hn.
  destruct (host_vec st) as [hv |]; [| discriminate]. simpl.
  destruct (collect_rows _ _ _ _ _); [| discriminate]. simpl.
  destruct (central_pmt _); [| discriminate]. simpl.
  destruct (vector_of _); [| discriminate]. simpl.
  destruct (panel_name st); [| discriminate]. simpl.
  destruct (pyint _); [| discriminate]. simpl.
  intros [= _ <- <- _]. reflexivity.
Qed.

(** The lookup of a host the file does not list raises. *)
Lemma get_pmt_coordinates_unlisted host_hex neighbour_hex rows :
  hex_listed host_hex rows = false ->
  get_pmt_coordinates pyfloat pyint host_hex neighbour_hex rows = None.
Proof.
  unfold hex_listed, get_pmt_coordinates. intros Hrows.
  destruct (scan_rows _ _ _ _ _) as [st |] eqn:Hscan; [| reflexivity].
  destruct (scan_rows_unlisted _ _ _ _ _ Hrows Hscan) as [Hh Hn].
  simpl in Hh, Hn. simpl. rewrite Hh, Hn.
  destruct (neighbour_vec st); [| reflexivity]. simpl.
  destruct (collect_rows _ _ _ _ _); [| reflexivity]. simpl.
  destruct (central_pmt _); [| reflexivity]. simpl.
  destruct (vector_of _); reflexivity.
Qed.

Lemma compare_fibre_unlisted pmt_hex neighbour_hex rows db fibre host :
  pmt_hex !! fibre = Some host ->
  hex_listed host rows = false ->
  compare_fibre pyfloat pyint PANELINFO pmt_hex neighbour_hex rows db fibre
  = mkRun [] None.
Proof.
  intros Hhost Hrows. unfold compare_fibre. rewrite Hhost. simpl.
  destruct (neighbour_hex !! fibre) as [neighbour |]; [| reflexivity].
  simpl. unfold calc_fibre_placement, calc_fibre_locals.
  rewrite (get_pmt_coordinates_unlisted _ _ _ Hrows). reflexivity.
Qed.

(** A fibre that raises ends the run: what follows it is not looked at. *)
Lemma compare_aborts pmt_hex neighbour_hex rows db fibre after : forall before,
  result (compare_position_calculations pyfloat pyint PANELINFO before
            pmt_hex neighbour_hex rows db) = Some tt ->
  result (compare_fibre pyfloat pyint PANELINFO pmt_hex neighbour_hex rows db
            fibre) = None ->
  let run := compare_position_calculations pyfloat pyint PANELINFO
               (before ++ fibre :: after) pmt_hex neighbour_hex rows db in
  result run = None /\
  trace run
  = trace (compare_position_calculations pyfloat pyint PANELINFO before
             pmt_hex neighbour_hex rows db)
    ++ trace (compare_fibre pyfloat pyint PANELINFO pmt_hex neighbour_hex rows
                db fibre).
Proof.
  induction before as [| f before IH]; intros Hbefore Hfibre; simpl.
  - rewrite (run_bind_None _ _ Hfibre). auto.
  - simpl in Hbefore.
    destruct (result (compare_fibre pyfloat pyint PANELINFO pmt_hex
                        neighbour_hex rows db f)) as [[] |] eqn:Hf.
    + rewrite (run_bind_Some _ _ _ Hf) in Hbefore. simpl in Hbefore.
      destruct (IH Hbefore Hfibre) as [Hres Htrace].
      rewrite !(run_bind_Some _ _ _ Hf). simpl.
      rewrite Hres, Htrace, app_assoc. auto.
    + rewrite (run_bind_None _ _ Hf) in Hbefore. discriminate.
Qed.

(** C8, amended.  When the host cell of a fibre has no match in the
    coordinate table, the placement of that fibre raises and the run of
    [compare_position_calculations] ends there: the fibres before it have
    been compared and reported, and no fibre after it is looked at. *)
Theorem unlisted_host_ends_run pmt_hex neighbour_hex rows db
    before fibre after host :
  pmt_hex !! fibre = Some host ->
  hex_listed host rows = false ->
  result (compare_position_calculations pyfloat pyint PANELINFO before
            pmt_hex neighbour_hex rows db) = Some tt ->
  (forall neighbour,
     calc_fibre_placement pyfloat pyint PANELINFO host neighbour rows = None) /\
  let run := compare_position_calculations pyfloat pyint PANELINFO
               (before ++ fibre :: after) pmt_hex neighbour_hex rows db in
  result run = None /\
  trace run
  = trace (compare_position_calculations pyfloat pyint PANELINFO before
             pmt_hex neighbour_hex rows db).
Proof.
  intros Hhost Hrows Hbefore. split.
  - intros neighbour. unfold calc_fibre_placement, calc_fibre_locals.
    rewrite (get_pmt_coordinates_unlisted _ _ _ Hrows). reflexivity.
  - pose proof (compare_fibre_unlisted pmt_hex neighbour_hex rows db fibre host
                  Hhost Hrows) as Hfibre.
    destruct (compare_aborts pmt_hex neighbour_hex rows db fibre after before
                Hbefore) as [Hres Htrace].
    { rewrite Hfibre. reflexivity. }
    split; [exact Hres |]. rewrite Htrace, Hfibre. apply app_nil_r.
Qed.

End BatchClaims.

Section BatchExamples.

(** Fibre [FS009] alone: it has no table, which is reported, and the run
    goes on. *)
Lemma demo_compare_FS009 :
  compare_position_calculations Demo.digits_float Demo.digits_int Demo.panelinfo
    ["FS009"] Demo.pmt_hex Demo.neighbour_hex Demo.rows Demo.db
  = mkRun [PrintBanner; PrintNoPosition "FS009"] (Some tt).
Proof.
  unfold compare_position_calculations, compare_fibre.
  replace (Demo.pmt_hex !! "FS009") with (Some "H001") by reflexivity.
  replace (Demo.neighbour_hex !! "FS009") with (Some "none") by reflexivity.
  replace (Demo.db !! "FS009") with (@None DBTable) by reflexivity.
  cbn [mbind option_bind]. rewrite demo_placement_none. reflexivity.
Qed.

Lemma demo_compare_FS404 :
  compare_fibre Demo.digits_float Demo.digits_int Demo.panelinfo
    Demo.pmt_hex Demo.neighbour_hex Demo.rows Demo.db "FS404"
  = mkRun [] None.
Proof. apply (compare_fibre_unlisted _ _ _ _ _ _ _ _ "H404"); reflexivity. Qed.

(** [FS404] sits on a cell the file does not list: the run ends at it, after
    the report on [FS009] and before [FS007]. *)
Lemma unlisted_host_ends_run_witness :
  result (compare_position_calculations Demo.digits_float Demo.digits_int
            Demo.panelinfo (["FS009"] ++ "FS404" :: ["FS007"])
            Demo.pmt_hex Demo.neighbour_hex Demo.rows Demo.db) = None /\
  trace (compare_position_calculations Demo.digits_float Demo.digits_int
           Demo.panelinfo (["FS009"] ++ "FS404" :: ["FS007"])
           Demo.pmt_hex Demo.neighbour_hex Demo.rows Demo.db)
  = [PrintBanner; PrintNoPosition "FS009"].
Proof.
  destruct (unlisted_host_ends_run Demo.digits_float Demo.digits_int
              Demo.panelinfo Demo.pmt_hex Demo.neighbour_hex Demo.rows Demo.db
              ["FS009"] "FS404" ["FS007"] "H404" eq_refl eq_refl)
    as (_ & Hres & Htrace).
  - rewrite demo_compare_FS009. reflexivity.
  - split; [exact Hres |]. rewrite Htrace, demo_compare_FS009. reflexivity.
Defined.

(** C8 as stated fails: with [FS404] first the run raises at once, and
    [FS009], which alone is compared and reported, is never looked at. *)
Lemma unlisted_host_counterexample :
  Demo.pmt_hex !! "FS404" = Some "H404" /\
  hex_listed "H404" Demo.rows = false /\
  compare_position_calculations Demo.digits_float Demo.digits_int Demo.panelinfo
    ["FS009"] Demo.pmt_hex Demo.neighbour_hex Demo.rows Demo.db
  = mkRun [PrintBanner; PrintNoPosition "FS009"] (Some tt) /\
  compare_position_calculations Demo.digits_float Demo.digits_int Demo.panelinfo
    ["FS404"; "FS009"] Demo.pmt_hex Demo.neighbour_hex Demo.rows Demo.db
  = mkRun [] None.
Proof.
  split; [reflexivity |]. split; [reflexivity |].
  split; [exact demo_compare_FS009 |].
  change (compare_position_calculations Demo.digits_float Demo.digits_int
            Demo.panelinfo ["FS404"; "FS009"] Demo.pmt_hex Demo.neighbour_hex
            Demo.rows Demo.db)
    with (compare_fibre Demo.digits_float Demo.digits_int Demo.panelinfo
            Demo.pmt_hex Demo.neighbour_hex Demo.rows Demo.db "FS404"
          ≫= fun _ =>
            compare_position_calculations Demo.digits_float Demo.digits_int
              Demo.panelinfo ["FS009"] Demo.pmt_hex Demo.neighbour_hex
              Demo.rows Demo.db).
  rewrite demo_compare_FS404. reflexivity.
Qed.

End BatchExamples.

(** ** The install table *)

Section InstallProperties.

Variable pyint : string -> option Z.

Lemma install_rows_app rows1 : forall tab rows2,
  install_rows pyint tab (rows1 ++ rows2)
  = install_rows pyint tab rows1 ≫= fun tab => install_rows pyint tab rows2.
Proof.
  induction rows1 as [| row rows1 IH]; intros tab rows2; [reflexivity |].
  simpl. destruct (install_row pyint tab row) as [tab1 |]; [| reflexivity].
  simpl. apply IH.
Qed.

Lemma row_plate_is_Some row :
  is_Some (row_plate row) <->
  exists moved, row !! 12%nat = Some moved /\
    (String.eqb moved "" = true \/ (14 <= length row)%nat).
Proof.
  unfold row_plate, Row in *. split.
  - intros [hn H]. destruct (row !! 12%nat) as [moved |] eqn:H12; [| discriminate].
    exists moved. split; [reflexivity |]. cbn -[lookup] in H.
    destruct (String.eqb moved ""); [auto |]. right.
    destruct (row !! 13%nat) eqn:H13; [| discriminate].
    apply lookup_lt_Some in H13. lia.
  - intros (moved & H12 & H).
    pose proof (lookup_lt_Some _ _ _ H12) as Hlen. rewrite H12.
    cbn -[lookup]. destruct (String.eqb moved "") eqn:Hmoved.
    + destruct (lookup_lt_is_Some_2 row 8%nat) as [h ->]; [lia |].
      destruct (lookup_lt_is_Some_2 row 9%nat) as [n ->]; [lia |].
      cbn. eauto.
    + destruct H as [H | H]; [discriminate |].
      destruct (lookup_lt_is_Some_2 row 13%nat) as [n ->]; [lia |].
      cbn. eauto.
Qed.

Lemma row_fibre_is_Some row :
  (4 <= length row)%nat -> is_Some (row_fibre row).
Proof.
  intros Hlen. unfold row_fibre, Row in *.
  destruct (lookup_lt_is_Some_2 row 3%nat) as [c ->]; [lia |]. cbn -[lookup].
  destruct (String.eqb c ""); [| eauto].
  apply lookup_lt_is_Some_2. lia.
Qed.

Lemma install_row_is_Some tab row :
  is_Some (install_row pyint tab row) <-> row_complete pyint row = true.
Proof.
  unfold install_row, row_complete.
  destruct (row !! 0%nat ≫= pyint) as [node |]; [| split; eauto].
  split.
  - intros [tab' H].
    destruct (row_fibre row) as [fibre |]; [| discriminate]. simpl in H.
    assert (is_Some (row_plate row)) as Hplate.
    { destruct (row_plate row); [eauto |].
      destruct (String.eqb (str_take 2 fibre) "FT"); discriminate. }
    apply row_plate_is_Some in Hplate as (moved & -> & Hmoved).
    destruct (String.eqb moved ""); [reflexivity |].
    destruct Hmoved as [? | Hlen]; [discriminate |].
    apply Nat.leb_le, Hlen.
  - intros H. destruct (row !! 12%nat) as [moved |] eqn:H12; [| discriminate].
    pose proof (lookup_lt_Some _ _ _ H12) as Hlen.
    destruct (row_fibre_is_Some row) as [fibre ->]; [lia |]. simpl.
    destruct (proj2 (row_plate_is_Some row)) as [[host neighbour] ->].
    { exists moved. split; [exact H12 |].
      destruct (String.eqb moved ""); [auto |]. right. apply Nat.leb_le, H. }
    destruct (String.eqb (str_take 2 fibre) "FT"); simpl; eauto.
Qed.

Lemma install_rows_is_Some rows : forall tab,
  is_Some (install_rows pyint tab rows)
  <-> forallb (row_complete pyint) rows = true.
Proof.
  induction rows as [| row rows IH]; intros tab; simpl.
  - split; eauto.
  - rewrite andb_true_iff, <- (install_row_is_Some tab row). split.
    + intros [tab' H].
      destruct (install_row pyint tab row) as [tab1 |]; [| discriminate].
      split; [eauto |]. apply (IH tab1). eauto.
    + intros [[tab1 ->] H]. simpl. apply IH, H.
Qed.

(** X1.  [read_install_table] returns exactly when every row whose first
    field is an integer has its thirteenth field, and its fourteenth too
    when the thirteenth is filled in; a shorter row raises. *)
Theorem read_install_table_returns rows :
  is_Some (read_install_table pyint rows)
  <-> forallb (row_complete pyint) rows = true.
Proof. apply install_rows_is_Some. Qed.

(** *** Names with a last letter *)

Lemma append_letter_inj f : forall g a b,
  f +:+ String a "" = g +:+ String b "" -> f = g /\ a = b.
Proof.
  induction f as [| c f IH]; intros [| d g] a b H; simpl in H.
  - injection H as ->. auto.
  - injection H as _ H. destruct g; discriminate.
  - injection H as _ H. destruct f; discriminate.
  - injection H as -> H. apply IH in H as [-> ->]. auto.
Qed.

Lemma substring_nothing s : substring 0 0 s = "".
Proof. destruct s; reflexivity. Qed.

Lemma str_take_FT_append f x :
  str_take 2 f = "FT" -> str_take 2 (f +:+ x) = "FT".
Proof.
  unfold str_take. destruct f as [| c1 [| c2 f]]; simpl; try discriminate.
  rewrite !substring_nothing. auto.
Qed.

(** *** The invariants of the loop *)

Lemma insert_covered {V} (m : gmap string V) (l : list string) name v f :
  (In f l <-> is_Some (m !! f)) ->
  (In f (l ++ [name]) <-> is_Some (<[name := v]> m !! f)).
Proof.
  intros H. rewrite in_app_iff, lookup_insert_is_Some, H. simpl.
  destruct (decide (name = f)); tauto.
Qed.

Lemma install_fibre_covered name node host neighbour tab :
  install_covered tab ->
  install_covered (install_fibre name node host neighbour tab).
Proof.
  intros H f. destruct (H f) as (H1 & H2 & H3).
  unfold install_fibre. simpl.
  split; [| split]; apply insert_covered; assumption.
Qed.

Lemma install_row_covered tab row tab' :
  install_covered tab -> install_row pyint tab row = Some tab' ->
  install_covered tab'.
Proof.
  unfold install_row. intros Hcov.
  destruct (row !! 0%nat ≫= pyint) as [node |]; [| intros [= <-]; exact Hcov].
  destruct (row_fibre row) as [fibre |]; [| discriminate]. simpl.
  destruct (row_plate row) as [[host neighbour] |];
    [| destruct (String.eqb (str_take 2 fibre) "FT"); discriminate].
  destruct (String.eqb (str_take 2 fibre) "FT"); simpl; intros [= <-];
    repeat apply install_fibre_covered; exact Hcov.
Qed.

Lemma install_rows_covered rows : forall tab tab',
  install_covered tab -> install_rows pyint tab rows = Some tab' ->
  install_covered tab'.
Proof.
  induction rows as [| row rows IH]; intros tab tab' Hcov H; simpl in H.
  - injection H as <-. exact Hcov.
  - destruct (install_row pyint tab row) as [tab1 |] eqn:Hrow; [| discriminate].
    apply (IH tab1); [| exact H]. apply (install_row_covered _ _ _ Hcov Hrow).
Qed.

Lemma insert_pair_paired {V} (m : gmap string V) g v f :
  m !! (f +:+ "A") = m !! (f +:+ "B") ->
  <[g +:+ "B" := v]> (<[g +:+ "A" := v]> m) !! (f +:+ "A")
  = <[g +:+ "B" := v]> (<[g +:+ "A" := v]> m) !! (f +:+ "B").
Proof.
  intros H.
  rewrite (lookup_insert_ne _ (g +:+ "B") (f +:+ "A"))
    by (intros E; apply append_letter_inj in E as [_ E]; discriminate).
  destruct (decide (g = f)) as [-> | Hne].
  - rewrite !lookup_insert_eq. reflexivity.
  - rewrite (lookup_insert_ne _ (g +:+ "A") (f +:+ "A"))
      by (intros E; apply append_letter_inj in E as [E _]; auto).
    rewrite (lookup_insert_ne _ (g +:+ "B") (f +:+ "B"))
      by (intros E; apply append_letter_inj in E as [E _]; auto).
    rewrite (lookup_insert_ne _ (g +:+ "A") (f +:+ "B"))
      by (intros E; apply append_letter_inj in E as [_ E]; discriminate).
    exact H.
Qed.

Lemma insert_single_paired {V} (m : gmap string V) g v f :
  str_take 2 f = "FT" -> str_take 2 g <> "FT" ->
  m !! (f +:+ "A") = m !! (f +:+ "B") ->
  <[g := v]> m !! (f +:+ "A") = <[g := v]> m !! (f +:+ "B").
Proof.
  intros Hf Hg H.
  rewrite !lookup_insert_ne
    by (intros ->; apply Hg, str_take_FT_append, Hf).
  exact H.
Qed.

Lemma install_row_paired tab row tab' :
  install_paired tab -> install_row pyint tab row = Some tab' ->
  install_paired tab'.
Proof.
  unfold install_row. intros Hpair.
  destruct (row !! 0%nat ≫= pyint) as [node |]; [| intros [= <-]; exact Hpair].
  destruct (row_fibre row) as [fibre |]; [| discriminate]. simpl.
  destruct (row_plate row) as [[host neighbour] |];
    [| destruct (String.eqb (str_take 2 fibre) "FT"); discriminate].
  destruct (String.eqb (str_take 2 fibre) "FT") eqn:HFT; simpl;
    intros [= <-] f Hf; destruct (Hpair f Hf) as (H1 & H2 & H3);
    unfold install_fibre; simpl.
  - split; [| split]; apply insert_pair_paired; assumption.
  - assert (str_take 2 fibre <> "FT") as Hne
      by (intros E; apply String.eqb_eq in E; congruence).
    split; [| split]; apply insert_single_paired; assumption.
Qed.

Lemma install_rows_paired rows : forall tab tab',
  install_paired tab -> install_rows pyint tab rows = Some tab' ->
  install_paired tab'.
Proof.
  induction rows as [| row rows IH]; intros tab tab' Hpair H; simpl in H.
  - injection H as <-. exact Hpair.
  - destruct (install_row pyint tab row) as [tab1 |] eqn:Hrow; [| discriminate].
    apply (IH tab1); [| exact H]. apply (install_row_paired _ _ _ Hpair Hrow).
Qed.

Lemma no_install_covered : install_covered no_install.
Proof.
  intros f. unfold no_install. simpl. rewrite !lookup_empty.
  split; [| split];
    (split; [intros [] | intros Hs; destruct Hs as [? Hs]; discriminate]).
Qed.

(** X2.  In what [read_install_table] returns, the fibres of the list are
    exactly the keys of [nodes], of [pmt_hex] and of [neighbour_hex]: a
    lookup of a listed fibre in one of them never fails. *)
Theorem install_table_covered rows tab :
  read_install_table pyint rows = Some tab ->
  forall f,
    (In f (tab_fibres tab) <-> is_Some (tab_nodes tab !! f)) /\
    (In f (tab_fibres tab) <-> is_Some (tab_pmt_hex tab !! f)) /\
    (In f (tab_fibres tab) <-> is_Some (tab_neighbour_hex tab !! f)).
Proof.
  intros H. exact (install_rows_covered _ _ _ no_install_covered H).
Qed.

(** X3.  In what [read_install_table] returns, the fibres [A] and [B] of a
    plate [FT...] have the same node, the same host and the same neighbour,
    whatever rows name the plate and however often. *)
Theorem install_table_paired rows tab :
  read_install_table pyint rows = Some tab ->
  forall f,
    str_take 2 f = "FT" ->
    tab_nodes tab !! (f +:+ "A") = tab_nodes tab !! (f +:+ "B") /\
    tab_pmt_hex tab !! (f +:+ "A") = tab_pmt_hex tab !! (f +:+ "B") /\
    tab_neighbour_hex tab !! (f +:+ "A") = tab_neighbour_hex tab !! (f +:+ "B").
Proof.
  intros H. apply (install_rows_paired rows no_install tab); [| exact H].
  intros f _. unfold no_install. simpl. rewrite !lookup_empty. auto.
Qed.

(** X4.  Only the rows whose first field is an integer count: the title
    line, empty lines and every other row are passed over, wherever they
    stand. *)
Theorem install_table_counted_rows rows :
  read_install_table pyint rows
  = read_install_table pyint (List.filter (row_counted pyint) rows).
Proof.
  unfold read_install_table. generalize no_install.
  induction rows as [| row rows IH]; intros tab; [reflexivity |].
  destruct (row !! 0%nat ≫= pyint) as [node |] eqn:Hnode.
  - assert (row_counted pyint row = true) as Hc
      by (unfold row_counted; rewrite Hnode; reflexivity).
    simpl. rewrite Hc. simpl.
    destruct (install_row pyint tab row) as [tab1 |]; [| reflexivity].
    simpl. apply IH.
  - assert (row_counted pyint row = false) as Hc
      by (unfold row_counted; rewrite Hnode; reflexivity).
    assert (install_row pyint tab row = Some tab) as Hr
      by (unfold install_row; rewrite Hnode; reflexivity).
    simpl. rewrite Hc, Hr. simpl. apply IH.
Qed.

(** X5.  The last row that counts decides: after it the fibre of the row
    (both fibres of a plate) ends the list and has the node, the host and
    the neighbour of the row, the corrected columns first. *)
Theorem install_table_last_row rows row tab node fibre host neighbour :
  read_install_table pyint (rows ++ [row]) = Some tab ->
  row !! 0%nat ≫= pyint = Some node ->
  row_fibre row = Some fibre ->
  row_plate row = Some (host, neighbour) ->
  let names :=
    if String.eqb (str_take 2 fibre) "FT"
    then [fibre +:+ "A"; fibre +:+ "B"] else [fibre] in
  (exists before, tab_fibres tab = before ++ names) /\
  forall name, In name names ->
    tab_nodes tab !! name = Some node /\
    tab_pmt_hex tab !! name = Some host /\
    tab_neighbour_hex tab !! name = Some neighbour.
Proof.
  unfold read_install_table. rewrite install_rows_app.
  intros H Hnode Hfibre Hplate.
  destruct (install_rows pyint no_install rows) as [tab0 |]; [| discriminate].
  simpl in H. unfold install_row in H.
  rewrite Hnode, Hfibre in H. simpl in H. rewrite Hplate in H.
  destruct (String.eqb (str_take 2 fibre) "FT"); simpl in H;
    injection H as <-; simpl.
  - split; [exists (tab_fibres tab0); rewrite <- app_assoc; reflexivity |].
    intros name [<- | [<- | []]].
    + rewrite !(lookup_insert_ne _ (fibre +:+ "B") (fibre +:+ "A"))
        by (intros E; apply append_letter_inj in E as [_ E]; discriminate).
      rewrite !lookup_insert_eq. auto.
    + rewrite !lookup_insert_eq. auto.
  - split; [exists (tab_fibres tab0); reflexivity |].
    intros name [<- | []]. rewrite !lookup_insert_eq. auto.
Qed.

End InstallProperties.

Section InstallExamples.

Lemma install_demo :
  read_install_table Demo.digits_int Install.rows = Some Install.table.
Proof. reflexivity. Qed.

(** The fibre [FT001B] of the demo table is on the list, so it has a host. *)
Lemma install_table_covered_witness :
  is_Some (tab_pmt_hex Install.table !! "FT001B").
Proof.
  apply (install_table_covered Demo.digits_int Install.rows Install.table
           install_demo "FT001B").
  simpl. auto.
Defined.

Lemma install_table_paired_witness :
  tab_nodes Install.table !! "FT001A" = tab_nodes Install.table !! "FT001B" /\
  tab_pmt_hex Install.table !! "FT001A" = tab_pmt_hex Install.table !! "FT001B" /\
  tab_neighbour_hex Install.table !! "FT001A"
  = tab_neighbour_hex Install.table !! "FT001B".
Proof.
  exact (install_table_paired Demo.digits_int Install.rows Install.table
           install_demo "FT001" eq_refl).
Defined.

(** The last row of the demo table names [FS700], corrected to [FS007], and
    the host [H404], corrected to [H001]. *)
Lemma install_table_last_row_witness :
  tab_nodes Install.table !! "FS007" = Some 7%Z /\
  tab_pmt_hex Install.table !! "FS007" = Some "H001" /\
  tab_neighbour_hex Install.table !! "FS007" = Some "H002".
Proof.
  refine (proj2 (install_table_last_row Demo.digits_int
            (firstn 3 Install.rows)
            ["7"; "d"; "FS700"; "FS007"; ""; ""; ""; ""; "H404"; "H404"; "";
             ""; "H001"; "H002"]
            Install.table 7%Z "FS007" "H001" "H002" _ _ _ _) "FS007" _);
    try reflexivity.
  left. reflexivity.
Defined.

End InstallExamples.

(** ** The coordinate table as a dictionary *)

Section CellProperties.

Variable pyfloat : string -> option R.

Lemma cell_row_inv cells row cells' :
  cell_row pyfloat cells row = Some cells' ->
  (row = [] /\ cells' = cells) \/
  (row <> [] /\
   exists id pos,
     filter_None row !! 1%nat = Some id /\
     row_position pyfloat (filter_None row) = Some pos /\
     cells' = <[id := pos]> cells).
Proof.
  unfold cell_row. destruct row as [| field row].
  { intros [= <-]. auto. }
  simpl is_empty_row. cbv iota zeta.
  destruct (row_position pyfloat (filter_None (field :: row))) as [pos |];
    [| discriminate].
  destruct (filter_None (field :: row) !! 1%nat) as [id |]; [| discriminate].
  intros [= <-]. right. split; [discriminate |]. exists id, pos. auto.
Qed.

Lemma cell_rows_spec rows : forall cells0 cells,
  cell_rows pyfloat cells0 rows = Some cells ->
  (forall row, In row rows -> row <> [] ->
     is_Some (filter_None row !! 1%nat) /\
     is_Some (row_position pyfloat (filter_None row))) /\
  (forall id pos, cells !! id = Some pos ->
     cells0 !! id = Some pos \/
     exists row, In row rows /\ row <> [] /\
       filter_None row !! 1%nat = Some id /\
       row_position pyfloat (filter_None row) = Some pos) /\
  (forall id, is_Some (cells0 !! id) -> is_Some (cells !! id)) /\
  (forall row id, In row rows -> row <> [] ->
     filter_None row !! 1%nat = Some id -> is_Some (cells !! id)).
Proof.
  induction rows as [| row rows IH]; intros cells0 cells H; simpl in H.
  - injection H as <-. split; [| split; [| split]].
    + intros ? [].
    + auto.
    + auto.
    + intros ? ? [].
  - destruct (cell_row pyfloat cells0 row) as [cells1 |] eqn:Hrow;
      [| discriminate].
    simpl in H. destruct (IH _ _ H) as (Hall & Hfrom & Hkeep & Hin).
    apply cell_row_inv in Hrow
      as [[-> ->] | (Hne & id & pos & Hid & Hpos & ->)].
    + split; [| split; [| split]].
      * intros row [<- | Hr] Hnn; [contradiction | auto].
      * intros id pos Hc. destruct (Hfrom id pos Hc) as [? | (r & ? & ?)]; eauto.
        right. exists r. split; [right |]; auto.
      * exact Hkeep.
      * intros row id [<- | Hr] Hnn; [contradiction | eauto].
    + split; [| split; [| split]].
      * intros r [<- | Hr] Hnn; [rewrite Hid, Hpos; eauto | auto].
      * intros id' pos' Hc.
        destruct (Hfrom id' pos' Hc) as [H0 | (r & ? & ?)].
        -- destruct (decide (id = id')) as [<- | Hd].
           ++ rewrite lookup_insert_eq in H0. injection H0 as <-.
              right. exists row. split; [left; reflexivity | auto].
           ++ rewrite lookup_insert_ne in H0 by exact Hd. auto.
        -- right. exists r. split; [right |]; auto.
      * intros id' Hs. apply Hkeep.
        rewrite lookup_insert_is_Some. destruct (decide (id = id')); auto.
      * intros r id' [<- | Hr] Hnn Hid'; [| eauto].
        apply Hkeep. rewrite Hid in Hid'. injection Hid' as <-.
        rewrite lookup_insert_eq. eauto.
Qed.

(** X6.  When [read_PMT_coordinates] returns, its keys are the second
    fields of the non-empty lines, every position comes from such a line,
    and every non-empty line, the first one included, has a second field
    and three numbers as fourth to sixth field: no title line is passed
    over, and a line that does not parse raises. *)
Theorem read_PMT_coordinates_cells rows cells :
  read_PMT_coordinates pyfloat rows = Some cells ->
  (forall id, is_Some (cells !! id) <->
     exists row, In row rows /\ row <> [] /\ filter_None row !! 1%nat = Some id) /\
  (forall id pos, cells !! id = Some pos ->
     exists row, In row rows /\ row <> [] /\
       filter_None row !! 1%nat = Some id /\
       row_position pyfloat (filter_None row) = Some pos) /\
  (forall row, In row rows -> row <> [] ->
     is_Some (filter_None row !! 1%nat) /\
     is_Some (row_position pyfloat (filter_None row))).
Proof.
  intros H. destruct (cell_rows_spec _ _ _ H) as (Hall & Hfrom & _ & Hin).
  assert (forall id pos, cells !! id = Some pos ->
            exists row, In row rows /\ row <> [] /\
              filter_None row !! 1%nat = Some id /\
              row_position pyfloat (filter_None row) = Some pos) as Hfrom'.
  { intros id pos Hc. destruct (Hfrom id pos Hc) as [H0 | ?]; [| assumption].
    rewrite lookup_empty in H0. discriminate. }
  split; [| split]; [| exact Hfrom' | exact Hall].
  intros id. split.
  - intros [pos Hc]. destruct (Hfrom' id pos Hc) as (row & ? & ? & ? & _).
    eauto.
  - intros (row & Hr & Hne & Hid). apply (Hin row id Hr Hne Hid).
Qed.

End CellProperties.

Lemma cells_demo :
  is_Some (read_PMT_coordinates Demo.digits_float (tail Demo.rows)) /\
  read_PMT_coordinates Demo.digits_float Demo.rows = None.
Proof. split; [eexists |]; vm_compute; reflexivity. Qed.

(** Without its title line the demo file is read, and [H002] is a key. *)
Lemma read_PMT_coordinates_cells_witness :
  exists cells,
    read_PMT_coordinates Demo.digits_float (tail Demo.rows) = Some cells /\
    is_Some (cells !! "H002").
Proof.
  destruct (proj1 cells_demo) as [cells H]. exists cells. split; [exact H |].
  apply (proj1 (read_PMT_coordinates_cells Demo.digits_float (tail Demo.rows)
                  cells H) "H002").
  exists ["2"; "H002"; "a"; "100"; "10"; "0"; "P00203"]. simpl.
  split; [auto |]. split; [discriminate | reflexivity].
Defined.

(** ** More on the placement *)

Section PlacementGeometry.

Import TVector3.

Variable pyfloat : string -> option R.
Variable pyint : string -> option Z.
Variable PANELINFO : PanelInfo.

Lemma Dot_Cross_l p q : Dot (Cross p q) p = 0.
Proof. unfold Dot, Cross. simpl. ring. Qed.

Lemma Dot_Cross_r p q : Dot (Cross p q) q = 0.
Proof. unfold Dot, Cross. simpl. ring. Qed.

Lemma Dot_scale_l p a q : Dot (p * a)%vec q = a * Dot p q.
Proof. unfold Dot, scale. simpl. ring. Qed.

Lemma Dot_comm p q : Dot p q = Dot q p.
Proof. unfold Dot. ring. Qed.

Lemma Dot_SetMag_zero p ma q : Dot p q = 0 -> Dot (SetMag p ma) q = 0.
Proof.
  intros H. unfold SetMag. destruct (Req_dec_T (Mag p) 0); [exact H |].
  unfold Dot in *. simpl.
  replace (fX p * (ma / Mag p) * fX q + fY p * (ma / Mag p) * fY q
           + fZ p * (ma / Mag p) * fZ q)
    with ((ma / Mag p) * (fX p * fX q + fY p * fY q + fZ p * fZ q)) by ring.
  rewrite H. ring.
Qed.

Lemma Mag2_of_Mag p : Mag2 p = Mag p * Mag p.
Proof. unfold Mag. rewrite sqrt_sqrt; [reflexivity | apply Mag2_nonneg]. Qed.

Lemma Mag2_add p q : Mag2 (p + q)%vec = Mag2 p + Mag2 q + 2 * Dot p q.
Proof. unfold Mag2, Dot, add. simpl. ring. Qed.

Lemma Mag2_sub p q : Mag2 (p - q)%vec = Mag2 p + Mag2 q - 2 * Dot p q.
Proof. unfold Mag2, Dot, sub. simpl. ring. Qed.

Lemma Mag2_scale p a : Mag2 (p * a)%vec = a * a * Mag2 p.
Proof. unfold Mag2, scale. simpl. ring. Qed.

Lemma add_sub_assoc p q r : ((p + q) - r)%vec = ((p - r) + q)%vec.
Proof. unfold add, sub. simpl. f_equal; ring. Qed.

Lemma sub_sub_assoc p q r : ((p - q) - r)%vec = ((p - r) - q)%vec.
Proof. unfold sub. simpl. f_equal; ring. Qed.

(** X7.  For every placement that returns, the line from [positionB] to
    [positionA] is at right angles to the panel's vector to the centre and
    to the offset of the plate from the host cell. *)
Theorem fibre_pair_orthogonal host_hex neighbour_hex rows p :
  calc_fibre_locals pyfloat pyint PANELINFO host_hex neighbour_hex rows = Some p ->
  Dot (positionA p - positionB p)%vec (vec_to_centre p) = 0 /\
  Dot (positionA p - positionB p)%vec (plate_vec p - pl_host_vec p)%vec = 0.
Proof.
  intros Hp.
  apply calc_fibre_locals_Some in Hp
    as (central & host & neighbour & number & uvw & _ & _ & ->).
  simpl. rewrite difference_offsets, !Dot_scale_l.
  rewrite (Dot_SetMag_zero _ _ _ (Dot_Cross_r _ _)).
  rewrite (Dot_SetMag_zero _ _ _ (Dot_Cross_l _ _)).
  split; ring.
Qed.

(** X8.  For every placement that returns with the neighbour vector off
    the central vector, the plate is [hex_radius + plate_height] from the
    host cell; when the cross product does not vanish either, both fibres
    are at the same distance from the host cell, the root of the squares
    of that offset and of [fibre_separation]. *)
Theorem fibres_equidistant_from_host host_hex neighbour_hex rows p :
  calc_fibre_locals pyfloat pyint PANELINFO host_hex neighbour_hex rows = Some p ->
  pl_neighbour_vec p <> vec_from_centre p ->
  Mag (plate_vec p - pl_host_vec p)%vec = hex_radius + plate_height /\
  (Cross (plate_vec p - pl_host_vec p)%vec (vec_to_centre p) <> zero ->
   let d := sqrt ((hex_radius + plate_height) * (hex_radius + plate_height)
                  + fibre_separation * fibre_separation) in
   Mag (positionA p - pl_host_vec p)%vec = d /\
   Mag (positionB p - pl_host_vec p)%vec = d).
Proof.
  intros Hp.
  apply calc_fibre_locals_Some in Hp
    as (central & host & neighbour & number & uvw & _ & _ & ->).
  change (pl_neighbour_vec (place central host neighbour uvw)) with neighbour.
  change (vec_from_centre (place central host neighbour uvw)) with central.
  change (pl_host_vec (place central host neighbour uvw)) with host.
  intros Hne.
  assert ((neighbour - central)%vec <> zero) as Hnz
    by (intros H; apply Hne, sub_zero_inv, H).
  set (pl := place central host neighbour uvw).
  assert (Mag (plate_vec pl - host)%vec = hex_radius + plate_height) as Hplate.
  { unfold pl. simpl. rewrite add_sub_cancel, Mag_scale, SetMag_unit by exact Hnz.
    pose proof plate_offset_pos. rewrite Rabs_right; lra. }
  split; [exact Hplate |]. intros Hcross d.
  assert (Mag2 (curve_correction pl) = 1) as Hcurve.
  { rewrite Mag2_of_Mag.
    change (curve_correction pl)
      with (SetMag (Cross (plate_vec pl - host)%vec (vec_to_centre pl)) 1).
    rewrite SetMag_unit by exact Hcross. ring. }
  assert (Dot (plate_vec pl - host)%vec (curve_correction pl) = 0) as Hdot.
  { rewrite Dot_comm. apply Dot_SetMag_zero, Dot_Cross_l. }
  assert (Mag2 (plate_vec pl - host)%vec
          = (hex_radius + plate_height) * (hex_radius + plate_height)) as Hp2
    by (rewrite Mag2_of_Mag, Hplate; reflexivity).
  unfold Mag, d. split; f_equal.
  - change (positionA pl)
      with (plate_vec pl + curve_correction pl * fibre_separation)%vec.
    rewrite add_sub_assoc, Mag2_add, Mag2_scale, Hcurve, Hp2.
    rewrite (Dot_comm _ (curve_correction pl * fibre_separation)%vec),
      Dot_scale_l, (Dot_comm (curve_correction pl)), Hdot. ring.
  - change (positionB pl)
      with (plate_vec pl - curve_correction pl * fibre_separation)%vec.
    rewrite sub_sub_assoc, Mag2_sub, Mag2_scale, Hcurve, Hp2.
    rewrite (Dot_comm _ (curve_correction pl * fibre_separation)%vec),
      Dot_scale_l, (Dot_comm (curve_correction pl)), Hdot. ring.
Qed.

End PlacementGeometry.

Lemma fibre_pair_orthogonal_witness :
  TVector3.Dot (positionA Demo.placed - positionB Demo.placed)%vec
    (vec_to_centre Demo.placed) = 0.
Proof.
  exact (proj1 (fibre_pair_orthogonal Demo.digits_float Demo.digits_int
                  Demo.panelinfo "H001" "H002" Demo.rows Demo.placed
                  demo_locals)).
Defined.

Lemma fibres_equidistant_from_host_witness :
  TVector3.Mag (positionA Demo.placed - pl_host_vec Demo.placed)%vec
  = TVector3.Mag (positionB Demo.placed - pl_host_vec Demo.placed)%vec.
Proof.
  destruct (fibres_equidistant_from_host Demo.digits_float Demo.digits_int
              Demo.panelinfo "H001" "H002" Demo.rows Demo.placed demo_locals)
    as (_ & H).
  - simpl. intros [= H]. lra.
  - destruct (H demo_cross_nonzero) as [-> ->]. reflexivity.
Defined.

(** ** The panel of a placement *)

Section PanelProperties.

Variable pyfloat : string -> option R.
Variable pyint : string -> option Z.

Lemma list_index_first x l : forall i,
  list_index x l = Some i ->
  l !! i = Some x /\ forall j, (j < i)%nat -> l !! j <> Some x.
Proof.
  induction l as [| y l IH]; intros i H; simpl in H; [discriminate |].
  destruct (Z.eqb y x) eqn:Hy.
  - injection H as <-. apply Z.eqb_eq in Hy as ->.
    split; [reflexivity | intros j Hj; lia].
  - destruct (list_index x l) as [i' |]; [| discriminate].
    injection H as <-. destruct (IH i' eq_refl) as [Hi Hfirst].
    split; [exact Hi |]. intros [| j] Hj; simpl.
    + intros [= ->]. rewrite Z.eqb_refl in Hy. discriminate.
    + apply Hfirst. lia.
Qed.

Lemma list_index_None x l : list_index x l = None <-> ~ In x l.
Proof.
  induction l as [| y l IH]; simpl; [tauto |].
  destruct (Z.eqb y x) eqn:Hy.
  - apply Z.eqb_eq in Hy. split; [discriminate | intros H; destruct H; auto].
  - apply Z.eqb_neq in Hy. destruct (list_index x l); simpl.
    + split; [discriminate |]. intros H. exfalso.
      assert (~ In x l) as Hl by (intros Hl; apply H; right; exact Hl).
      apply IH in Hl. discriminate.
    + split; [| reflexivity]. intros _ [H | H]; [auto |].
      apply (proj1 IH); auto.
Qed.

(** X9.  A panel number that [PANELINFO] does not hold is fatal for the
    placement: the host and the neighbour are found, and
    [calc_fibre_placement] raises all the same. *)
Theorem missing_panel_raises PANELINFO host_hex neighbour_hex rows
    central host neighbour number :
  get_pmt_coordinates pyfloat pyint host_hex neighbour_hex rows
    = Some (central, host, neighbour, number) ->
  ~ In number (panel_number PANELINFO) ->
  calc_fibre_placement pyfloat pyint PANELINFO host_hex neighbour_hex rows = None.
Proof.
  intros Hc Hin. unfold calc_fibre_placement, calc_fibre_locals, panel_vector.
  rewrite Hc. simpl. apply list_index_None in Hin. rewrite Hin. reflexivity.
Qed.

(** X10.  The vector to the centre is read at the first entry of
    [panel_number] that is the number of the panel, from the three arrays
    [u], [v], [w]; a later entry with the same number is never used. *)
Theorem panel_vector_first_entry PANELINFO number uvw :
  panel_vector PANELINFO number = Some uvw ->
  exists i,
    panel_number PANELINFO !! i = Some number /\
    (forall j, (j < i)%nat -> panel_number PANELINFO !! j <> Some number) /\
    panel_u PANELINFO !! i = Some (TVector3.fX uvw) /\
    panel_v PANELINFO !! i = Some (TVector3.fY uvw) /\
    panel_w PANELINFO !! i = Some (TVector3.fZ uvw).
Proof.
  unfold panel_vector. intros H.
  destruct (list_index number (panel_number PANELINFO)) as [i |] eqn:Hi;
    [| discriminate].
  simpl in H.
  destruct (panel_u PANELINFO !! i) as [u |] eqn:Hu; [| discriminate].
  simpl in H.
  destruct (panel_v PANELINFO !! i) as [v |] eqn:Hv; [| discriminate].
  simpl in H.
  destruct (panel_w PANELINFO !! i) as [w |] eqn:Hw; [| discriminate].
  simpl in H. injection H as <-. exists i.
  destruct (list_index_first _ _ _ Hi) as [H1 H2]. simpl.
  split; [exact H1 |]. split; [exact H2 |]. auto.
Qed.

(** *** A neighbour the file does not list *)

Lemma scan_row_same host_hex neighbour_hex st1 st2 row :
  lists_hex neighbour_hex row = false ->
  same_scan (Some st1) (Some st2) ->
  same_scan (scan_row pyfloat host_hex host_hex st1 row)
            (scan_row pyfloat host_hex neighbour_hex st2 row).
Proof.
  unfold lists_hex, scan_row. intros Hrow (Hh & Hn & H1 & H2).
  destruct (is_empty_row row); simpl in *; [auto |].
  destruct (filter_None row !! 1%nat) as [id |]; simpl; [| exact I].
  simpl in Hrow. rewrite Hrow.
  destruct (String.eqb (str_take 4 id) host_hex); simpl; [| auto].
  destruct (row_vector pyfloat (filter_None row)) as [v |]; simpl; [| exact I].
  destruct (filter_None row !! 6%nat) as [name |]; simpl; [| exact I].
  auto.
Qed.

Lemma scan_rows_same host_hex neighbour_hex rows : forall st1 st2,
  existsb (lists_hex neighbour_hex) rows = false ->
  same_scan (Some st1) (Some st2) ->
  same_scan (scan_rows pyfloat host_hex host_hex st1 rows)
            (scan_rows pyfloat host_hex neighbour_hex st2 rows).
Proof.
  induction rows as [| row rows IH]; intros st1 st2 Hrows Hsame; [exact Hsame |].
  simpl in Hrows. apply orb_false_iff in Hrows as [Hrow Hrows]. simpl.
  pose proof (scan_row_same host_hex neighbour_hex st1 st2 row Hrow Hsame) as H.
  destruct (scan_row pyfloat host_hex host_hex st1 row) as [st1' |],
    (scan_row pyfloat host_hex neighbour_hex st2 row) as [st2' |];
    simpl; try contradiction; [| exact I].
  apply IH; assumption.
Qed.

(** X11.  A neighbour identifier that no line of the file matches is no
    failure: the placement is the one with the host as its own neighbour,
    the same positions or the same failure. *)
Theorem unlisted_neighbour_is_host PANELINFO host_hex neighbour_hex rows :
  str_in "none" neighbour_hex = false ->
  hex_listed neighbour_hex rows = false ->
  calc_fibre_placement pyfloat pyint PANELINFO host_hex neighbour_hex rows
  = calc_fibre_placement pyfloat pyint PANELINFO host_hex host_hex rows.
Proof.
  intros Hnone Hrows.
  assert (get_pmt_coordinates pyfloat pyint host_hex neighbour_hex rows
          = get_pmt_coordinates pyfloat pyint host_hex host_hex rows) as Heq.
  { unfold get_pmt_coordinates. rewrite Hnone.
    replace (if str_in "none" host_hex then host_hex else host_hex)
      with host_hex by (destruct (str_in "none" host_hex); reflexivity).
    pose proof (scan_rows_same host_hex neighbour_hex (tail rows)
                  no_locals no_locals Hrows) as H.
    destruct (scan_rows pyfloat host_hex host_hex no_locals (tail rows))
      as [st1 |],
      (scan_rows pyfloat host_hex neighbour_hex no_locals (tail rows))
      as [st2 |]; simpl in H; try (exfalso; apply H; simpl; auto; fail);
      [| reflexivity].
    destruct H as (Hh & Hn & H1 & H2); [simpl; auto |].
    simpl. rewrite H1, H2, <- Hh, <- Hn.
    destruct (host_vec st1); reflexivity. }
  unfold calc_fibre_placement, calc_fibre_locals. rewrite Heq. reflexivity.
Qed.

(** X12.  The cells collected for a panel are those the lines of the file
    list for it: a cell number is a key of [panel_pmts] exactly when some
    line names the panel and ends in that number, and every position kept
    is the position of such a line. *)
Theorem panel_cells_are_listed name rows panel_pmts :
  collect_rows pyfloat pyint (Some name) ∅ rows = Some panel_pmts ->
  (forall k, is_Some (panel_pmts !! k) <->
     exists row pos, In row rows /\ lists_cell pyfloat pyint name row k pos) /\
  (forall k pos, panel_pmts !! k = Some pos ->
     exists row, In row rows /\ lists_cell pyfloat pyint name row k pos).
Proof.
  intros H.
  assert (forall k pos, panel_pmts !! k = Some pos ->
            exists row, In row rows /\ lists_cell pyfloat pyint name row k pos)
    as Hfrom.
  { intros k pos Hk.
    destruct (collect_rows_listed _ _ _ _ _ _ _ _ H Hk) as [H0 | ?];
      [| assumption].
    rewrite lookup_empty in H0. discriminate. }
  split; [| exact Hfrom]. intros k. split.
  - intros [pos Hk]. destruct (Hfrom k pos Hk) as (row & ? & ?). eauto.
  - intros (row & pos & Hin & Hlist).
    apply (collect_rows_complete _ _ _ _ _ _ _ _ _ H Hin Hlist).
Qed.

End PanelProperties.

Section PanelExamples.

Import TVector3.

(** The demo placement with a [PANELINFO] that has no panel 1. *)
Lemma missing_panel_raises_witness :
  calc_fibre_placement Demo.digits_float Demo.digits_int Install.panels_without
    "H001" "H002" Demo.rows = None.
Proof.
  apply (missing_panel_raises Demo.digits_float Demo.digits_int
           Install.panels_without "H001" "H002" Demo.rows
           _ _ _ _ demo_coordinates).
  simpl. intros [H | [H | []]]; discriminate.
Defined.

(** Panel 1 twice in [PANELINFO]: the first entry, (1, 0, 0), is read. *)
Lemma panel_vector_first_entry_witness :
  exists i,
    panel_number Install.panels_twice !! i = Some 1%Z /\
    (forall j, (j < i)%nat -> panel_number Install.panels_twice !! j <> Some 1%Z) /\
    panel_u Install.panels_twice !! i = Some 1 /\
    panel_v Install.panels_twice !! i = Some 0 /\
    panel_w Install.panels_twice !! i = Some 0.
Proof.
  exact (panel_vector_first_entry Install.panels_twice 1%Z (mk 1 0 0) eq_refl).
Defined.

(** No line of the demo file matches [H999]. *)
Lemma unlisted_neighbour_is_host_witness :
  calc_fibre_placement Demo.digits_float Demo.digits_int Demo.panelinfo
    "H003" "H999" Demo.rows
  = calc_fibre_placement Demo.digits_float Demo.digits_int Demo.panelinfo
    "H003" "H003" Demo.rows.
Proof.
  apply (unlisted_neighbour_is_host Demo.digits_float Demo.digits_int
           Demo.panelinfo "H003" "H999" Demo.rows); reflexivity.
Defined.

Lemma demo_panel_cells :
  is_Some (collect_rows Demo.digits_float Demo.digits_int (Some "P001") ∅
             (tail Demo.rows)).
Proof. eexists. vm_compute. reflexivity. Qed.

(** Cell 1 of panel [P001] of the demo file is collected. *)
Lemma panel_cells_are_listed_witness :
  exists panel_pmts,
    collect_rows Demo.digits_float Demo.digits_int (Some "P001") ∅
      (tail Demo.rows) = Some panel_pmts /\
    is_Some (panel_pmts !! 1%Z).
Proof.
  destruct demo_panel_cells as [pm H]. exists pm. split; [exact H |].
  apply (proj1 (panel_cells_are_listed Demo.digits_float Demo.digits_int
                  "P001" (tail Demo.rows) pm H) 1%Z).
  exists ["3"; "H003"; ""; "a"; "100"; "0"; "20"; "P00101"], [100; 0; 20].
  split; [simpl; auto |]. split; [discriminate |].
  exists "P00101". repeat split; reflexivity.
Defined.

End PanelExamples.

(** ** The range of the pointing angle *)

Section AngleRange.

Import TVector3.

Variable FIBRE_link : string -> string -> option R.

Lemma Angle_range p q : 0 <= Angle p q <= PI.
Proof.
  unfold Angle. destruct (Rle_dec (Mag2 p * Mag2 q) 0).
  - pose proof PI_RGT_0. lra.
  - apply acos_bound.
Qed.

Lemma angle_between_range p q : 0 <= angle_between p q <= 180.
Proof.
  unfold angle_between. pose proof (Angle_range p q) as [H0 H1].
  pose proof PI_RGT_0 as Hpi.
  assert (0 <= Angle p q * (180 / PI) <= 180); [| lra].
  split.
  - apply Rmult_le_pos; [exact H0 |].
    apply Rlt_le, Rdiv_lt_0_compat; lra.
  - replace 180 with (PI * (180 / PI)) at 2 by (field; lra).
    apply Rmult_le_compat_r; [| exact H1].
    apply Rlt_le, Rdiv_lt_0_compat; lra.
Qed.

Lemma round_tens_range x : 0 <= x <= 180 -> (0 <= round_tens x <= 180)%Z.
Proof.
  intros [H0 H1]. unfold round_tens, round_half_away.
  destruct (Rle_dec 0 (x / 10)) as [_ | H]; [| exfalso; apply H; lra].
  destruct (base_Int_part (x / 10 + 1 / 2)) as [Hle Hgt].
  assert (-1 < Int_part (x / 10 + 1 / 2) < 19)%Z as [Ha Hb].
  { split; apply lt_IZR; lra. }
  lia.
Qed.

(** Whatever the database holds, an angle that [make_new_db_files]
    assigns is one of 0, 10, ..., 180: [get_pointing_angle] returns a value
    between 0 and 180, and it is rounded to a multiple of ten. *)
Theorem fibre_angle_range fibre angle :
  result (fibre_angle FIBRE_link fibre) = Some (Some angle) ->
  (0 <= angle <= 180)%Z /\ (10 | angle)%Z.
Proof.
  unfold fibre_angle.
  destruct (String.eqb (str_take 2 fibre) "FT").
  { intros [= <-]. split; [lia | apply Z.divide_0_r]. }
  destruct (link_vector FIBRE_link fibre "x" "y" "z") as [c |] eqn:Hc.
  - destruct (link_vector FIBRE_link fibre "u" "v" "w") as [p |] eqn:Hp.
    + rewrite (get_pointing_angle_read _ _ _ _ Hc Hp). simpl.
      intros [= <-]. split.
      * apply round_tens_range, angle_between_range.
      * apply round_tens_nearest.
    + rewrite get_pointing_angle_unread by auto. discriminate.
  - rewrite get_pointing_angle_unread by auto. discriminate.
Qed.

End AngleRange.

(** Fibre [FS008] of the demo database. *)
Lemma fibre_angle_range_witness :
  exists angle,
    result (fibre_angle Demo.link "FS008") = Some (Some angle) /\
    (0 <= angle <= 180)%Z /\ (10 | angle)%Z.
Proof.
  assert (result (fibre_angle Demo.link "FS008")
          = Some (Some (round_tens (angle_between (TVector3.mk 0 0 800)
                                      (TVector3.mk 0 0 800))))) as H.
  { unfold fibre_angle.
    replace (String.eqb (str_take 2 "FS008") "FT") with false by reflexivity.
    rewrite (get_pointing_angle_read Demo.link "FS008" (TVector3.mk 0 0 800)
               (TVector3.mk 0 0 800) eq_refl eq_refl).
    reflexivity. }
  eexists. split; [exact H |].
  exact (fibre_angle_range Demo.link "FS008" _ H).
Defined.

(** ** More on the new database files *)

Section OutputProperties.

Variable FIBRE_link : string -> string -> option R.

(** X14.  A fibre that is no plate fibre and whose entry cannot be read is
    passed over with the message of [get_pointing_angle]: nothing is
    written for it and the run goes on with the next fibre, on the same
    database. *)
Theorem unread_fibre_is_skipped nodes fibre rest db :
  String.eqb (str_take 2 fibre) "FT" = false ->
  link_vector FIBRE_link fibre "x" "y" "z" = None \/
  link_vector FIBRE_link fibre "u" "v" "w" = None ->
  let run := make_new_db_files FIBRE_link nodes (fibre :: rest) db in
  trace run
    = PrintNoReference fibre :: trace (make_new_db_files FIBRE_link nodes rest db) /\
  result run = result (make_new_db_files FIBRE_link nodes rest db).
Proof.
  intros HFT Hlink. simpl.
  assert (new_db_file FIBRE_link nodes db fibre
          = mkRun [PrintNoReference fibre] (Some db)) as Hstep.
  { unfold new_db_file, fibre_angle. rewrite HFT.
    rewrite (get_pointing_angle_unread _ _ Hlink). reflexivity. }
  rewrite (run_bind_Some _ _ db) by (rewrite Hstep; reflexivity).
  rewrite Hstep. simpl. auto.
Qed.

(** X15.  A fibre with an angle but without a node in [nodes], or without
    a table, ends the run: nothing is written for it or for the fibres
    after it. *)
Theorem missing_node_ends_run nodes fibre rest db angle :
  result (fibre_angle FIBRE_link fibre) = Some (Some angle) ->
  db !! fibre = None \/ nodes !! fibre = None ->
  make_new_db_files FIBRE_link nodes (fibre :: rest) db = mkRun [] None.
Proof.
  intros Hangle Hmiss. simpl.
  assert (new_db_file FIBRE_link nodes db fibre = mkRun [] None) as Hstep.
  { unfold new_db_file.
    destruct (fibre_angle_cases FIBRE_link fibre) as [(a & _ & Ha) | Ha];
      rewrite Ha in *; [| discriminate].
    destruct Hmiss as [H | H].
    - rewrite H. reflexivity.
    - rewrite H. destruct (db !! fibre); reflexivity. }
  rewrite (run_bind_None _ _) by (rewrite Hstep; reflexivity).
  rewrite Hstep. reflexivity.
Qed.

Lemma new_db_file_result nodes db fibre db1 :
  result (new_db_file FIBRE_link nodes db fibre) = Some db1 ->
  db1 = db \/
  exists table node angle,
    db !! fibre = Some table /\ db1 = <[fibre := updated table node angle]> db.
Proof.
  unfold new_db_file.
  destruct (fibre_angle_cases FIBRE_link fibre) as [(angle & _ & ->) | ->].
  - destruct (db !! fibre) as [table |] eqn:Htable; [| discriminate].
    destruct (nodes !! fibre) as [node |]; [| discriminate].
    simpl. intros [= <-]. right. exists table, node, angle. auto.
  - simpl. intros [= <-]. auto.
Qed.

(** X16.  A run of [make_new_db_files] that returns has left every
    real-valued field of every table as it was (the recorded positions and
    directions are not touched), has added and removed no table, and has
    left the tables of the fibres it was not given untouched. *)
Theorem new_files_keep_positions nodes fibres : forall db db',
  result (make_new_db_files FIBRE_link nodes fibres db) = Some db' ->
  (forall f, tblD <$> db' !! f = tblD <$> db !! f) /\
  (forall f, ~ In f fibres -> db' !! f = db !! f).
Proof.
  induction fibres as [| fibre fibres IH]; intros db db' H; simpl in H.
  - injection H as <-. auto.
  - destruct (result (new_db_file FIBRE_link nodes db fibre)) as [db1 |] eqn:H1.
    2: { rewrite (run_bind_None _ _ H1) in H. discriminate. }
    rewrite (run_bind_Some _ _ _ H1) in H. simpl in H.
    destruct (IH _ _ H) as [HD Hout].
    apply new_db_file_result in H1
      as [-> | (table & node & angle & Htable & ->)].
    + split; [exact HD |]. intros f Hf. apply Hout. simpl in Hf. tauto.
    + split.
      * intros f. rewrite HD. destruct (decide (fibre = f)) as [<- | Hne].
        -- rewrite lookup_insert_eq, Htable. reflexivity.
        -- rewrite lookup_insert_ne by exact Hne. reflexivity.
      * intros f Hf. simpl in Hf. rewrite Hout by tauto.
        apply lookup_insert_ne. tauto.
Qed.

End OutputProperties.

Section OutputMoreExamples.

(** [FS404] has no entry in the demo database. *)
Lemma unread_fibre_is_skipped_witness :
  trace (make_new_db_files Demo.link Demo.nodes ["FS404"; "FT001A"] Demo.db)
  = [PrintNoReference "FS404";
     SaveAs "./new_tables/FT001A.json" (updated (mkTable ∅ ∅) 12 0)].
Proof.
  destruct (unread_fibre_is_skipped Demo.link Demo.nodes "FS404" ["FT001A"]
              Demo.db eq_refl (or_introl eq_refl)) as [Htrace _].
  rewrite Htrace, demo_written. reflexivity.
Defined.

(** [FT001B] has the angle 0 and no node in the demo [nodes]. *)
Lemma missing_node_ends_run_witness :
  make_new_db_files Demo.link Demo.nodes ["FT001B"; "FT001A"] Demo.db
  = mkRun [] None.
Proof.
  apply (missing_node_ends_run Demo.link Demo.nodes "FT001B" ["FT001A"]
           Demo.db 0%Z); [reflexivity |].
  left. reflexivity.
Defined.

Lemma demo_written_result :
  is_Some (result (make_new_db_files Demo.link Demo.nodes ["FT001A"] Demo.db)).
Proof. eexists. vm_compute. reflexivity. Qed.

(** After the run for [FT001A] the table of [FS007] is the one it was. *)
Lemma new_files_keep_positions_witness :
  exists db',
    result (make_new_db_files Demo.link Demo.nodes ["FT001A"] Demo.db)
      = Some db' /\
    db' !! "FS007" = Demo.db !! "FS007".
Proof.
  destruct demo_written_result as [db' H]. exists db'. split; [exact H |].
  apply (proj2 (new_files_keep_positions Demo.link Demo.nodes ["FT001A"]
                  Demo.db db' H) "FS007").
  simpl. intros [H' | []]. discriminate.
Defined.

End OutputMoreExamples.

(** ** More on the comparison *)

Section CompareProperties.

Import TVector3.

Variable pyfloat : string -> option R.
Variable pyint : string -> option Z.
Variable PANELINFO : PanelInfo.

Lemma compare_fibre_result pmt_hex neighbour_hex rows db fibre :
  result (compare_fibre pyfloat pyint PANELINFO pmt_hex neighbour_hex rows db
            fibre) = Some tt
  <-> comparable pyfloat pyint PANELINFO pmt_hex neighbour_hex rows db fibre.
Proof.
  unfold compare_fibre, comparable.
  destruct (pmt_hex !! fibre) as [host |]; simpl.
  2: { split; [discriminate | intros (? & ? & H & _); discriminate H]. }
  destruct (neighbour_hex !! fibre) as [neighbour |]; simpl.
  2: { split; [discriminate | intros (? & ? & _ & H & _); discriminate H]. }
  assert ((exists host0 neighbour0,
             Some host = Some host0 /\ Some neighbour = Some neighbour0 /\
             placed_and_recorded pyfloat pyint PANELINFO rows db fibre
               host0 neighbour0)
          <-> placed_and_recorded pyfloat pyint PANELINFO rows db fibre
                host neighbour) as ->.
  { split; [intros (? & ? & [= <-] & [= <-] & H); exact H | eauto]. }
  unfold placed_and_recorded.
  destruct (calc_fibre_placement pyfloat pyint PANELINFO host neighbour rows)
    as [[posA posB] |]; simpl.
  2: { split; [discriminate | intros (? & ? & H & _); discriminate H]. }
  destruct (db !! fibre ≫= fun table => GetD table "x") as [x |]; simpl.
  2: { split; [| reflexivity]. intros _.
       exists posA, posB. split; [reflexivity | discriminate]. }
  destruct (is_B fibre) as [b |]; simpl.
  2: { split; [discriminate |]. intros (? & ? & _ & H).
       destruct (H x eq_refl) as (? & H' & _). discriminate H'. }
  destruct (Rgt_dec (Rabs (x / 10 - fX (if b then posB else posA))) 1)
    as [Hgt | Hle]; simpl.
  - destruct (db !! fibre ≫= fun table => GetD table "y") as [y |]; simpl.
    2: { split; [discriminate |]. intros (A & B & [= <- <-] & H).
         destruct (H x eq_refl) as (b' & [= <-] & H').
         destruct (H' Hgt) as [[? Hy] _]. discriminate Hy. }
    destruct (db !! fibre ≫= fun table => GetD table "z") as [z |]; simpl.
    2: { split; [discriminate |]. intros (A & B & [= <- <-] & H).
         destruct (H x eq_refl) as (b' & [= <-] & H').
         destruct (H' Hgt) as [_ [? Hz]]. discriminate Hz. }
    split; [| reflexivity]. intros _. exists posA, posB.
    split; [reflexivity |]. intros x' [= <-]. exists b. eauto.
  - split; [| reflexivity]. intros _. exists posA, posB.
    split; [reflexivity |]. intros x' [= <-]. exists b.
    split; [reflexivity | contradiction].
Qed.

Lemma compare_result pmt_hex neighbour_hex rows db fibres :
  result (compare_position_calculations pyfloat pyint PANELINFO fibres
            pmt_hex neighbour_hex rows db) = Some tt
  <-> Forall (comparable pyfloat pyint PANELINFO pmt_hex neighbour_hex rows db)
        fibres.
Proof.
  induction fibres as [| fibre fibres IH]; simpl.
  - split; [constructor | reflexivity].
  - rewrite Forall_cons, <- IH, <- compare_fibre_result.
    destruct (result (compare_fibre pyfloat pyint PANELINFO pmt_hex
                        neighbour_hex rows db fibre)) as [[] |] eqn:Hf.
    + rewrite (run_bind_Some _ _ _ Hf). simpl. tauto.
    + rewrite (run_bind_None _ _ Hf). simpl.
      split; [discriminate | intros [? _]; discriminate].
Qed.

(** X17.  A run of [compare_position_calculations] returns exactly when
    every fibre of the list has a host and a neighbour in the two
    dictionaries, a placement that returns, and, if its table has an [x], a
    last letter and, where the discrepancy is printed, a [y] and a [z]; a
    fibre without table or without [x] never stops the run. *)
Theorem compare_returns pmt_hex neighbour_hex rows db fibres :
  result (compare_position_calculations pyfloat pyint PANELINFO fibres
            pmt_hex neighbour_hex rows db) = Some tt
  <-> Forall (comparable pyfloat pyint PANELINFO pmt_hex neighbour_hex rows db)
        fibres.
Proof. apply compare_result. Qed.

(** X18.  A fibre whose placement returns and whose table has no [x] (or
    that has no table) is reported in two lines and passed over: the run
    goes on with the next fibre. *)
Theorem unrecorded_fibre_is_skipped pmt_hex neighbour_hex rows db
    fibre rest host neighbour :
  pmt_hex !! fibre = Some host ->
  neighbour_hex !! fibre = Some neighbour ->
  is_Some (calc_fibre_placement pyfloat pyint PANELINFO host neighbour rows) ->
  db !! fibre ≫= (fun table => GetD table "x") = None ->
  let run := compare_position_calculations pyfloat pyint PANELINFO
               (fibre :: rest) pmt_hex neighbour_hex rows db in
  trace run
    = PrintBanner :: PrintNoPosition fibre
      :: trace (compare_position_calculations pyfloat pyint PANELINFO rest
                  pmt_hex neighbour_hex rows db) /\
  result run
    = result (compare_position_calculations pyfloat pyint PANELINFO rest
                pmt_hex neighbour_hex rows db).
Proof.
  intros Hhost Hneighbour [[posA posB] Hplace] Hx. simpl.
  assert (compare_fibre pyfloat pyint PANELINFO pmt_hex neighbour_hex rows db
            fibre = mkRun [PrintBanner; PrintNoPosition fibre] (Some tt))
    as Hstep.
  { unfold compare_fibre. rewrite Hhost, Hneighbour. simpl.
    rewrite Hplace. simpl. rewrite Hx. reflexivity. }
  rewrite (run_bind_Some _ _ tt) by (rewrite Hstep; reflexivity).
  rewrite Hstep. simpl. auto.
Qed.

(** X19.  Runs compose: the run over two lists, one after the other, prints
    what the first run prints and then, if the first run returns, what the
    second prints, and ends as the second does; if the first run raises,
    nothing of the second list is looked at. *)
Theorem compare_lists_compose pmt_hex neighbour_hex rows db fibres1 fibres2 :
  let run1 := compare_position_calculations pyfloat pyint PANELINFO fibres1
                pmt_hex neighbour_hex rows db in
  let run2 := compare_position_calculations pyfloat pyint PANELINFO fibres2
                pmt_hex neighbour_hex rows db in
  compare_position_calculations pyfloat pyint PANELINFO (fibres1 ++ fibres2)
    pmt_hex neighbour_hex rows db
  = match result run1 with
    | Some _ => mkRun (trace run1 ++ trace run2) (result run2)
    | None => run1
    end.
Proof.
  induction fibres1 as [| fibre fibres1 IH]; simpl.
  - destruct (compare_position_calculations pyfloat pyint PANELINFO fibres2
                pmt_hex neighbour_hex rows db). reflexivity.
  - simpl in IH.
    destruct (result (compare_fibre pyfloat pyint PANELINFO pmt_hex
                        neighbour_hex rows db fibre)) as [[] |] eqn:Hf.
    + rewrite !(run_bind_Some _ _ _ Hf). simpl. rewrite IH.
      destruct (result (compare_position_calculations pyfloat pyint PANELINFO
                          fibres1 pmt_hex neighbour_hex rows db)) eqn:H1; simpl.
      * rewrite app_assoc. reflexivity.
      * rewrite H1. reflexivity.
    + rewrite !(run_bind_None _ _ Hf). simpl. reflexivity.
Qed.

(** *** The entry point *)

(** X20.  [main] returns exactly when the install table can be read and
    every fibre it lists is placed, with the host and the neighbour the
    table has for it, and recorded well enough to be compared.  The table
    has a host and a neighbour for every fibre it lists: no lookup in its
    dictionaries fails. *)
Theorem main_returns install pmt db :
  result (main pyfloat pyint PANELINFO install pmt db) = Some tt
  <-> exists tab,
        read_install_table pyint install = Some tab /\
        forall fibre host neighbour,
          In fibre (tab_fibres tab) ->
          tab_pmt_hex tab !! fibre = Some host ->
          tab_neighbour_hex tab !! fibre = Some neighbour ->
          placed_and_recorded pyfloat pyint PANELINFO pmt db fibre
            host neighbour.
Proof.
  unfold main.
  destruct (read_install_table pyint install) as [tab |] eqn:Hread.
  - rewrite (run_bind_Some (run_lift (Some tab)) _ tab eq_refl). simpl.
    rewrite compare_result, Forall_forall. unfold comparable. split.
    + intros H. exists tab. split; [reflexivity |].
      intros fibre host neighbour Hin Hhost Hneighbour.
      destruct (H fibre) as (host' & neighbour' & Hh & Hn & Hp);
        [apply list_elem_of_In, Hin |].
      congruence.
    + intros (tab' & [= <-] & H) fibre Hin. apply list_elem_of_In in Hin.
      destruct (install_rows_covered pyint _ _ _ no_install_covered Hread fibre)
        as (_ & Hh & Hn).
      destruct (proj1 Hh Hin) as [host Hhost].
      destruct (proj1 Hn Hin) as [neighbour Hneighbour].
      exists host, neighbour. eauto.
  - rewrite (run_bind_None (run_lift None) _ eq_refl). simpl.
    split; [discriminate | intros (? & H & _); discriminate H].
Qed.

(** X21.  An install table with a row that counts and is too short makes
    [main] raise before anything is compared or printed. *)
Theorem main_short_row install pmt db :
  forallb (row_complete pyint) install = false ->
  main pyfloat pyint PANELINFO install pmt db = mkRun [] None.
Proof.
  intros H. unfold main.
  destruct (read_install_table pyint install) as [tab |] eqn:Hread.
  - assert (forallb (row_complete pyint) install = true) as Ht
      by (apply (install_rows_is_Some pyint install no_install); eauto).
    congruence.
  - reflexivity.
Qed.

End CompareProperties.

Section CompareExamples.

(** Fibre [FS009] of the demo is placed and has no table. *)
Lemma unrecorded_fibre_is_skipped_witness :
  trace (compare_position_calculations Demo.digits_float Demo.digits_int
           Demo.panelinfo ["FS009"] Demo.pmt_hex Demo.neighbour_hex Demo.rows
           Demo.db)
  = [PrintBanner; PrintNoPosition "FS009"].
Proof.
  refine (proj1 (unrecorded_fibre_is_skipped Demo.digits_float Demo.digits_int
                   Demo.panelinfo Demo.pmt_hex Demo.neighbour_hex Demo.rows
                   Demo.db "FS009" [] "H001" "none" eq_refl eq_refl _ eq_refl)).
  rewrite demo_placement_none. eauto.
Defined.

(** An install table whose only record stops after the fibre. *)
Lemma main_short_row_witness :
  main Demo.digits_float Demo.digits_int Demo.panelinfo
    [["Node"; "Date"; "Fibre"]; ["12"; "d"; "FT001"]] Demo.rows Demo.db
  = mkRun [] None.
Proof.
  apply (main_short_row Demo.digits_float Demo.digits_int Demo.panelinfo).
  reflexivity.
Defined.

End CompareExamples.

(** ** The validator over a list of fibres *)

Section ValidatorBatch.

Import TVector3.

Variable pyfloat : string -> option R.
Variable pyint : string -> option Z.
Variable PANELINFO : PanelInfo.

Lemma run_bind_assoc {A B C} (m : Run A) (f : A -> Run B) (g : B -> Run C) :
  ((m ≫= f) ≫= g) = (m ≫= fun a => f a ≫= g).
Proof.
  unfold mbind, Run_bind, run_bind.
  destruct m as [t [a |]]; simpl; [| reflexivity].
  destruct (f a) as [t' [b |]]; simpl; [| reflexivity].
  destruct (g b) as [t'' r]; simpl. rewrite app_assoc. reflexivity.
Qed.

Lemma compare_app pmt_hex neighbour_hex rows db fibres2 : forall fibres1,
  compare_position_calculations pyfloat pyint PANELINFO (fibres1 ++ fibres2)
    pmt_hex neighbour_hex rows db
  = (compare_position_calculations pyfloat pyint PANELINFO fibres1
       pmt_hex neighbour_hex rows db
     ≫= fun _ =>
       compare_position_calculations pyfloat pyint PANELINFO fibres2
         pmt_hex neighbour_hex rows db).
Proof.
  induction fibres1 as [| fibre fibres1 IH]; simpl.
  - destruct (compare_position_calculations pyfloat pyint PANELINFO fibres2
                pmt_hex neighbour_hex rows db). reflexivity.
  - rewrite IH. symmetry. apply run_bind_assoc.
Qed.

(** C5.  In a run of [compare_position_calculations], a fibre with a
    recorded position ([x], [y], [z] in its table) whose placement returns
    is reported, between what is printed for the fibres before it and for
    the fibres after it, exactly when its recorded [x] divided by 10 and
    the computed [x] differ by more than 1 in absolute value; the computed
    position is [posB] when the identifier ends in "B" and [posA]
    otherwise.  Nothing is printed for it otherwise, whatever [y] and [z]
    are, and the run goes on in both cases. *)
Theorem validator_reports_on_x_only pmt_hex neighbour_hex rows db
    before fibre after host neighbour posA posB table x y z c :
  result (compare_position_calculations pyfloat pyint PANELINFO before
            pmt_hex neighbour_hex rows db) = Some tt ->
  pmt_hex !! fibre = Some host ->
  neighbour_hex !! fibre = Some neighbour ->
  calc_fibre_placement pyfloat pyint PANELINFO host neighbour rows
    = Some (posA, posB) ->
  db !! fibre = Some table ->
  GetD table "x" = Some x -> GetD table "y" = Some y -> GetD table "z" = Some z ->
  str_final fibre = Some c ->
  let pos := if Ascii.eqb c "B" then posB else posA in
  let printed_before :=
    trace (compare_position_calculations pyfloat pyint PANELINFO before
             pmt_hex neighbour_hex rows db) in
  let rest := compare_position_calculations pyfloat pyint PANELINFO after
                pmt_hex neighbour_hex rows db in
  let run := compare_position_calculations pyfloat pyint PANELINFO
               (before ++ fibre :: after) pmt_hex neighbour_hex rows db in
  result run = result rest /\
  (Rabs (x / 10 - fX pos) > 1 ->
   trace run
   = printed_before
     ++ [PrintBanner; PrintFibre fibre; PrintHostNeighbour host neighbour;
         PrintDatabase (x / 10) (y / 10) (z / 10);
         PrintCalculated (fX pos) (fY pos) (fZ pos)]
     ++ trace rest) /\
  (~ Rabs (x / 10 - fX pos) > 1 -> trace run = printed_before ++ trace rest).
Proof.
  intros Hbefore Hhost Hneighbour Hplace Htable Hx Hy Hz Hc
    pos printed_before rest run.
  destruct (discrepancy_on_x_only pyfloat pyint PANELINFO pmt_hex neighbour_hex
              rows db fibre host neighbour posA posB table x y z c
              Hhost Hneighbour Hplace Htable Hx Hy Hz Hc)
    as (Hres & Hyes & Hno).
  fold pos in Hyes, Hno.
  assert (result run = result rest /\
          trace run
          = printed_before
            ++ trace (compare_fibre pyfloat pyint PANELINFO pmt_hex
                        neighbour_hex rows db fibre)
            ++ trace rest) as [Hr Ht].
  { unfold run. rewrite compare_app.
    rewrite (run_bind_Some _ _ _ Hbefore). simpl.
    rewrite (run_bind_Some _ _ _ Hres). simpl. auto. }
  split; [exact Hr |]. split.
  - intros Hgt. rewrite Ht, (Hyes Hgt). reflexivity.
  - intros Hle. rewrite Ht, (Hno Hle). reflexivity.
Qed.

End ValidatorBatch.

Section ValidatorBatchExamples.

Import TVector3.

Lemma Mag_z_axis a : 0 <= a -> Mag (mk 0 0 a) = a.
Proof.
  intros Ha. unfold Mag, Mag2. simpl.
  replace (0 * 0 + 0 * 0 + a * a) with (a * a) by ring.
  apply sqrt_square, Ha.
Qed.

Lemma SetMag_z_unit : SetMag (mk 0 0 1) 1 = mk 0 0 1.
Proof.
  unfold SetMag. rewrite Mag_z_axis by lra.
  destruct (Req_dec_T 1 0); [reflexivity |]. simpl. f_equal; field.
Qed.

Lemma SetMag_x_pos a : 0 < a -> SetMag (mk a 0 0) 1 = mk 1 0 0.
Proof.
  intros Ha. unfold SetMag. rewrite Mag_x_axis by lra.
  destruct (Req_dec_T a 0); [lra |]. simpl. f_equal; field; lra.
Qed.

Lemma up_locals :
  calc_fibre_locals Demo.digits_float Demo.digits_int Install.panels_up
    "H001" "H002" Demo.rows = Some Install.placed_up.
Proof. unfold calc_fibre_locals. rewrite demo_coordinates. reflexivity. Qed.

(** Under [panels_up] the fibres sit 0.51 cm to either side along [x]. *)
Lemma up_positions :
  positionA Install.placed_up
    = mk (100 + fibre_separation) (hex_radius + plate_height) 0 /\
  positionB Install.placed_up
    = mk (100 - fibre_separation) (hex_radius + plate_height) 0.
Proof.
  unfold Install.placed_up. simpl.
  rewrite add_sub_cancel, SetMag_z_unit.
  replace (mk 100 10 0 - mk 100 0 0)%vec with (mk 0 10 0)
    by (unfold sub; simpl; f_equal; ring).
  rewrite SetMag_y_ten.
  replace (Cross (mk 0 1 0 * (hex_radius + plate_height))%vec (mk 0 0 1))
    with (mk (hex_radius + plate_height) 0 0)
    by (unfold Cross, scale; simpl; f_equal; ring).
  rewrite (SetMag_x_pos _ plate_offset_pos).
  unfold add, sub, scale. simpl. split; f_equal; ring.
Qed.

Lemma up_placement :
  calc_fibre_placement Demo.digits_float Demo.digits_int Install.panels_up
    "H001" "H002" Demo.rows
  = Some (mk (100 + fibre_separation) (hex_radius + plate_height) 0,
          mk (100 - fibre_separation) (hex_radius + plate_height) 0).
Proof.
  rewrite (calc_fibre_placement_locals _ _ _ _ _ _ _ up_locals).
  destruct up_positions as [-> ->]. reflexivity.
Qed.

(** [FS011A] is compared with [positionA], 0.69 cm from its record. *)
Lemma pair_first :
  compare_position_calculations Demo.digits_float Demo.digits_int
    Install.panels_up ["FS011A"] Install.pair_hex Install.pair_neighbour
    Demo.rows Install.pair_db
  = mkRun [] (Some tt).
Proof.
  destruct (discrepancy_on_x_only Demo.digits_float Demo.digits_int
              Install.panels_up Install.pair_hex Install.pair_neighbour
              Demo.rows Install.pair_db "FS011A" "H001" "H002"
              (mk (100 + fibre_separation) (hex_radius + plate_height) 0)
              (mk (100 - fibre_separation) (hex_radius + plate_height) 0)
              Install.pair_table 1012 0 0 "A"%char
              eq_refl eq_refl up_placement eq_refl eq_refl eq_refl eq_refl
              eq_refl)
    as (Hres & _ & Hno).
  cbv zeta in Hno. unfold compare_position_calculations.
  rewrite (run_bind_Some _ _ _ Hres). rewrite Hno; [reflexivity |].
  simpl. unfold fibre_separation. intros H. apply Rgt_not_le in H. apply H.
  apply Rabs_le. lra.
Qed.

(** The pair [FS011A], [FS011B], recorded at the same place: the record is
    0.69 cm from [positionA] and 1.71 cm from [positionB], and only
    [FS011B] is reported, with [positionB]. *)
Lemma validator_reports_on_x_only_witness :
  trace (compare_position_calculations Demo.digits_float Demo.digits_int
           Install.panels_up (["FS011A"] ++ "FS011B" :: [])
           Install.pair_hex Install.pair_neighbour Demo.rows Install.pair_db)
  = [PrintBanner; PrintFibre "FS011B"; PrintHostNeighbour "H001" "H002";
     PrintDatabase (1012 / 10) (0 / 10) (0 / 10);
     PrintCalculated (100 - fibre_separation) (hex_radius + plate_height) 0].
Proof.
  destruct (validator_reports_on_x_only Demo.digits_float Demo.digits_int
              Install.panels_up Install.pair_hex Install.pair_neighbour
              Demo.rows Install.pair_db ["FS011A"] "FS011B" [] "H001" "H002"
              (mk (100 + fibre_separation) (hex_radius + plate_height) 0)
              (mk (100 - fibre_separation) (hex_radius + plate_height) 0)
              Install.pair_table 1012 0 0 "B"%char)
    as (_ & Hyes & _);
    try reflexivity; [rewrite pair_first; reflexivity | exact up_placement |].
  cbv zeta in Hyes. rewrite Hyes.
  - rewrite pair_first. reflexivity.
  - simpl. unfold fibre_separation.
    replace (1012 / 10 - (100 - 0.51)) with 1.71 by lra.
    rewrite Rabs_right; lra.
Defined.

End ValidatorBatchExamples.

(** ** The plate fibres and the rounding, over a list of fibres *)

Section OutputBatch.

Variable FIBRE_link : string -> string -> option R.

Lemma make_new_db_files_app nodes fibres2 : forall fibres1 db,
  make_new_db_files FIBRE_link nodes (fibres1 ++ fibres2) db
  = (make_new_db_files FIBRE_link nodes fibres1 db
     ≫= fun db1 => make_new_db_files FIBRE_link nodes fibres2 db1).
Proof.
  induction fibres1 as [| fibre fibres1 IH]; intros db; simpl.
  - unfold mbind, Run_bind, run_bind. simpl.
    destruct (make_new_db_files FIBRE_link nodes fibres2 db). reflexivity.
  - rewrite run_bind_assoc.
    destruct (new_db_file FIBRE_link nodes db fibre) as [t [db1 |]].
    + rewrite !(run_bind_Some (mkRun t (Some db1)) _ db1 eq_refl).
      rewrite IH. reflexivity.
    + rewrite !(run_bind_None (mkRun t None) _ eq_refl). reflexivity.
Qed.

(** C7.  In a run of [make_new_db_files], a fibre whose identifier starts
    with "FT" and that has a table and a node is written with pointing
    angle 0, between what the fibres before it and the fibres after it
    give, whatever the database holds for it: its angle is 0 without the
    database being read, and nothing but the [SaveAs] is put out for it. *)
Theorem fixed_mount_written_with_zero nodes before fibre after db db1
    table node :
  str_take 2 fibre = "FT" ->
  result (make_new_db_files FIBRE_link nodes before db) = Some db1 ->
  db1 !! fibre = Some table ->
  nodes !! fibre = Some node ->
  let written := updated table node 0 in
  let rest := make_new_db_files FIBRE_link nodes after
                (<[fibre := written]> db1) in
  let run := make_new_db_files FIBRE_link nodes (before ++ fibre :: after) db in
  fibre_angle FIBRE_link fibre = mkRun [] (Some (Some 0%Z)) /\
  trace run
  = trace (make_new_db_files FIBRE_link nodes before db)
    ++ SaveAs ("./new_tables/" +:+ fibre +:+ ".json") written :: trace rest /\
  result run = result rest /\
  tblI written !! "pointing_angle" = Some 0%Z.
Proof.
  intros HFT Hbefore Htable Hnode written rest run.
  destruct (fixed_mount_angle_zero FIBRE_link fibre HFT) as [Hangle _].
  split; [exact Hangle |].
  assert (new_db_file FIBRE_link nodes db1 fibre
          = mkRun [SaveAs ("./new_tables/" +:+ fibre +:+ ".json") written]
              (Some (<[fibre := written]> db1))) as Hstep.
  { unfold new_db_file. rewrite Hangle.
    rewrite (run_bind_Some (mkRun [] (Some (Some 0%Z))) _ (Some 0%Z) eq_refl).
    cbn [trace result]. rewrite Htable, Hnode. reflexivity. }
  unfold run. rewrite make_new_db_files_app.
  rewrite (run_bind_Some _ _ _ Hbefore). simpl.
  rewrite (run_bind_Some _ _ (<[fibre := written]> db1))
    by (rewrite Hstep; reflexivity).
  rewrite Hstep. simpl. fold rest.
  split; [reflexivity |]. split; [reflexivity |].
  apply updated_fields.
Qed.

Lemma round_tens_half_up a :
  0 <= a -> -5 < IZR (round_tens a) - a <= 5.
Proof.
  intros Ha. unfold round_tens, round_half_away.
  destruct (Rle_dec 0 (a / 10)) as [_ | H]; [| exfalso; apply H; lra].
  destruct (base_Int_part (a / 10 + 1 / 2)) as [Hle Hgt].
  rewrite mult_IZR. lra.
Qed.

Lemma fibre_angle_value fibre angle :
  result (fibre_angle FIBRE_link fibre) = Some (Some angle) ->
  (str_take 2 fibre = "FT" -> angle = 0%Z) /\
  (str_take 2 fibre <> "FT" ->
   exists a,
     get_pointing_angle FIBRE_link fibre = mkRun [] (Some a) /\
     0 <= a <= 180 /\ -5 < IZR angle - a <= 5).
Proof.
  unfold fibre_angle.
  destruct (String.eqb (str_take 2 fibre) "FT") eqn:HFT.
  { intros [= <-]. split; [reflexivity |].
    intros H. apply String.eqb_eq in HFT. contradiction. }
  assert (str_take 2 fibre <> "FT") as Hne
    by (intros E; apply String.eqb_eq in E; congruence).
  destruct (link_vector FIBRE_link fibre "x" "y" "z") as [c |] eqn:Hc.
  - destruct (link_vector FIBRE_link fibre "u" "v" "w") as [p |] eqn:Hp.
    + rewrite (get_pointing_angle_read _ _ _ _ Hc Hp). simpl.
      intros [= <-]. split; [contradiction |]. intros _.
      exists (angle_between c p). split; [reflexivity |].
      pose proof (angle_between_range c p) as Hr.
      split; [exact Hr |]. apply round_tens_half_up. lra.
    + rewrite get_pointing_angle_unread by auto. discriminate.
  - rewrite get_pointing_angle_unread by auto. discriminate.
Qed.

(** X13.  Whatever the database holds, every table [make_new_db_files]
    writes has a pointing angle that is one of 0, 10, ..., 180.  For a
    plate fibre ("FT") it is 0; for every other fibre
    [get_pointing_angle] returns a value between 0 and 180, and the angle
    written is that value rounded to the nearest ten, a half going up: it
    is the multiple of ten that is less than 5 below the value and at most
    5 above it. *)
Theorem written_angle_is_rounded nodes fibres db fname tb :
  In (SaveAs fname tb) (trace (make_new_db_files FIBRE_link nodes fibres db)) ->
  exists fibre angle,
    In fibre fibres /\
    fname = ("./new_tables/" +:+ fibre +:+ ".json") /\
    tblI tb !! "pointing_angle" = Some angle /\
    (0 <= angle <= 180)%Z /\ (10 | angle)%Z /\
    (str_take 2 fibre = "FT" -> angle = 0%Z) /\
    (str_take 2 fibre <> "FT" ->
     exists a,
       get_pointing_angle FIBRE_link fibre = mkRun [] (Some a) /\
       0 <= a <= 180 /\ -5 < IZR angle - a <= 5).
Proof.
  intros Hin.
  apply make_new_db_files_written in Hin as (fibre & db' & Hf & Hin).
  apply new_db_file_written in Hin
    as (table & node & angle & _ & _ & Hangle & Hten & -> & ->).
  exists fibre, angle. split; [exact Hf |]. split; [reflexivity |].
  split; [apply updated_fields |].
  destruct (fibre_angle_range FIBRE_link fibre angle Hangle) as [Hrange _].
  destruct (fibre_angle_value fibre angle Hangle) as [HFT Hother].
  auto.
Qed.

End OutputBatch.

Section OutputBatchExamples.

Lemma demo_skips_FS404 :
  make_new_db_files Demo.link Demo.nodes ["FS404"] Demo.db
  = mkRun [PrintNoReference "FS404"] (Some Demo.db).
Proof. reflexivity. Qed.

(** [FT001A] after the unreadable [FS404]: it is written with the angle 0,
    though the database has it aim along its position vector. *)
Lemma fixed_mount_written_with_zero_witness :
  trace (make_new_db_files Demo.link Demo.nodes (["FS404"] ++ "FT001A" :: [])
           Demo.db)
  = [PrintNoReference "FS404";
     SaveAs "./new_tables/FT001A.json" (updated (mkTable ∅ ∅) 12 0)] /\
  tblI (updated (mkTable ∅ ∅) 12 0) !! "pointing_angle" = Some 0%Z.
Proof.
  destruct (fixed_mount_written_with_zero Demo.link Demo.nodes ["FS404"]
              "FT001A" [] Demo.db Demo.db (mkTable ∅ ∅) 12%Z eq_refl)
    as (_ & Htrace & _ & Hangle); try reflexivity.
  cbv zeta in Htrace, Hangle. split; [| exact Hangle].
  rewrite Htrace, demo_skips_FS404. reflexivity.
Defined.

Lemma demo_writes_FS007 :
  In (SaveAs "./new_tables/FS007.json"
        (updated
           (mkTable (list_to_map [("x"%string, 1200); ("y"%string, 50);
                                  ("z"%string, 0)]) ∅)
           7
           (round_tens (angle_between (TVector3.mk 1200 50 0)
                          (TVector3.mk (-1200) (-50) 0)))))
     (trace (make_new_db_files Demo.link Install.link_nodes ["FS007"] Demo.db)).
Proof.
  unfold make_new_db_files, new_db_file, fibre_angle.
  replace (String.eqb (str_take 2 "FS007") "FT") with false by reflexivity.
  rewrite (get_pointing_angle_read Demo.link "FS007" (TVector3.mk 1200 50 0)
             (TVector3.mk (-1200) (-50) 0) eq_refl eq_refl).
  left. reflexivity.
Qed.

(** [FS007] of the demo database, on node 7: its table is written with an
    angle between 0 and 180 that is a multiple of ten. *)
Lemma written_angle_is_rounded_witness :
  exists fibre angle,
    In fibre ["FS007"] /\
    tblI (updated
            (mkTable (list_to_map [("x"%string, 1200); ("y"%string, 50);
                                   ("z"%string, 0)]) ∅)
            7
            (round_tens (angle_between (TVector3.mk 1200 50 0)
                           (TVector3.mk (-1200) (-50) 0))))
      !! "pointing_angle" = Some angle /\
    (0 <= angle <= 180)%Z /\ (10 | angle)%Z.
Proof.
  destruct (written_angle_is_rounded Demo.link Install.link_nodes ["FS007"]
              Demo.db _ _ demo_writes_FS007)
    as (fibre & angle & Hf & _ & Hangle & Hrange & Hten & _).
  exists fibre, angle. auto.
Defined.

End OutputBatchExamples.
